(** * The conversation-turn orchestrator of the chat client

    A shallow embedding of [ChatInterface.tsx] (the turn handler and its two
    workflows), of the store actions it calls ([store], a zustand store), of
    the gateway functions of [services/api] and of the thread creation of
    [ThreadList.tsx], followed by the properties of one turn.

    Conventions of the embedding.
    - A JavaScript string is a [string] whose characters are code units
      below 256.
    - [new Date().toISOString()] and [Date.now().toString()] are injective
      renderings of the clock reading; the reading itself (epoch
      milliseconds, a [Z]) is stored.
    - The remote side is an [Env]: what each HTTP request of the turn is
      answered with, and what the clock shows at each reading.
    - A handler is a closure over the values of the render that created it
      ([Closure]); store and component state are threaded through a state
      and exception monad [M] that also logs every store action and every
      HTTP request in order of issue. *)

From Stdlib Require Import String Ascii DecimalString ZArith Lia Bool Arith List Sorted.
Import ListNotations.
Local Open Scope string_scope.
Local Open Scope list_scope.

(** ** JavaScript primitives used by the component *)

Module JS.

(** White space in the sense of [String.prototype.trim], restricted to
    code units below 256: TAB, LF, VT, FF, CR, SP and NBSP. *)
Definition isWhiteSpace (c : ascii) : bool :=
  let n := nat_of_ascii c in
  existsb (Nat.eqb n) [9; 10; 11; 12; 13; 32; 160]%nat.

Fixpoint trimStart (s : string) : string :=
  match s with
  | EmptyString => EmptyString
  | String c s' => if isWhiteSpace c then trimStart s' else s
  end.

Fixpoint reverse (s : string) : string :=
  match s with
  | EmptyString => EmptyString
  | String c s' => (reverse s' ++ String c EmptyString)%string
  end.

Definition trimEnd (s : string) : string := reverse (trimStart (reverse s)).

Definition trim (s : string) : string := trimEnd (trimStart s).

(** A string is truthy unless it is empty. *)
Definition truthy (s : string) : bool := negb (String.eqb s "").

(** [s.startsWith(p)] *)
Definition startsWith (s p : string) : bool := String.prefix p s.

(** [s.split(sep)] for a separator of one character. *)
Fixpoint split (sep : ascii) (s : string) : list string :=
  match s with
  | EmptyString => [EmptyString]
  | String c s' =>
      if Ascii.eqb c sep then EmptyString :: split sep s'
      else match split sep s' with
           | w :: ws => String c w :: ws
           | [] => [String c EmptyString]
           end
  end.

(** [xs.join(sep)] *)
Definition join (sep : string) (xs : list string) : string :=
  String.concat sep xs.

(** [xs.slice(0, n)] *)
Definition slice_to {A} (n : nat) (xs : list A) : list A := firstn n xs.

(** [xs.slice(-n)]: the last [n] elements, all of them when there are
    fewer. *)
Definition slice_last {A} (n : nat) (xs : list A) : list A :=
  skipn (length xs - n) xs.

End JS.

(** ** Data model ([types]) *)

(** Clock readings, in milliseconds. *)
Definition Time := Z.

Record Configuration := {
  cfg_id : option string;
  apiKey : string;
  assistantId : string;
  vectorStoreId : string;
  model : string;
  isDefault : bool;
  cfg_name : string;
  webhookURL : string;
  useAssistantApi : bool
}.

Record Thread := {
  threadId : string;
  name : string;
  createdAt : Time;
  lastUpdated : Time;
  isActive : bool
}.

Record Attachment := {
  att_id : string;
  filename : string;
  content_type : string;
  file_size : Z
}.

Inductive Role := user | assistant.

Definition Role_eqb (a b : Role) : bool :=
  match a, b with
  | user, user | assistant, assistant => true
  | _, _ => false
  end.

Record Message := {
  msg_id : option Time;
  msg_threadId : string;
  content : string;
  role : Role;
  timestamp : Time;
  attachments : list Attachment
}.

(** The status of a run, as [OpenAIRunResponse] declares it. *)
Inductive RunStatus :=
| queued | in_progress | completed | requires_action
| failed | cancelled | expired.

Record OpenAIRunResponse := {
  run_id : string;
  status : RunStatus
}.

Record TextContent := { value : string }.

Record ContentPart := {
  type : string;
  text : option TextContent
}.

Record OpenAIMessageResponse := {
  omr_id : string;
  created_at : Z;
  omr_role : Role;
  omr_content : list ContentPart
}.

Record OpenAIMessagesListResponse := {
  data : list OpenAIMessageResponse
}.

(** One entry of the history sent to the completion endpoint. *)
Record ChatMessage := {
  cm_role : Role;
  cm_content : string
}.

Record CompletionRequest := {
  req_model : string;
  req_messages : list ChatMessage;
  temperature : Z * Z;
  max_tokens : Z
}.

Record Choice := {
  choice_message : option ChatMessage
}.

Record CompletionResponse := {
  choices : list Choice
}.

(** ** Requests, failures and the log of effects *)

(** A thrown value: a plain [Error] or what axios rejects with.  The fields
    are the ones the code reads: [error.message],
    [axios.isAxiosError(error)], [error.response?.status] and
    [error.response?.data?.error?.message]. *)
Record Exn := {
  isAxiosError : bool;
  message : string;
  response_status : option Z;
  response_error_message : option string
}.

(** [new Error(msg)] *)
Definition Error (msg : string) : Exn :=
  {| isAxiosError := false; message := msg;
     response_status := None; response_error_message := None |}.

(** Body of [POST /threads/:id/messages]; [file_ids] is absent unless set. *)
Record MessagePayload := {
  mp_role : Role;
  mp_content : string;
  file_ids : option (list string)
}.

(** Body of [POST /threads/:id/runs]; [model] is absent unless set. *)
Record RunPayload := {
  assistant_id : string;
  rp_model : option string
}.

Record WebhookData := {
  userName : string;
  prompt : string;
  wh_timestamp : Time;
  wh_model : string;
  wh_threadId : string
}.

(** A file picked in the file input. *)
Record File := { file_name : string }.

(** Store actions and HTTP requests, in the order the turn issues them. *)
Inductive Event :=
| StoreAddMessage (m : Message)
| StoreUpdateThread (t : Thread)
| HttpPostMessage (tid : string) (payload : MessagePayload)
| HttpPostRun (tid : string) (payload : RunPayload)
| HttpGetRun (tid rid : string)
| HttpGetMessages (tid : string)
| HttpPostCompletion (req : CompletionRequest)
| HttpPostWebhook (url : string) (body : WebhookData)
| Sleep (ms : Z).

(** What the outside answers during one turn.  Each request other than the
    run-status read is issued at most once in a turn, so one answer each
    covers every behaviour of the remote side; the [k]-th status read
    (from 0) is answered by [get_run k], the [k]-th clock reading by
    [clock k]. *)
Record Env := {
  clock : nat -> Time;
  post_message : Exn + unit;
  post_run : Exn + OpenAIRunResponse;
  get_run : nat -> Exn + OpenAIRunResponse;
  get_messages : Exn + OpenAIMessagesListResponse;
  post_completion : Exn + CompletionResponse;
  post_webhook : Exn + unit
}.

(** ** State: the zustand store and the component's [useState] cells *)

Record AppState := {
  configurations : list Configuration;
  activeConfiguration : option Configuration;
  threads : list Thread;
  activeThread : option Thread;
  messages : list Message;
  isLoading : bool;
  darkMode : bool
}.

Record ChatState := {
  input : string;
  fileAttachments : list File;
  error : option string;
  runId : option string
}.

Record World := {
  store : AppState;
  chat : ChatState;
  clockReads : nat;
  statusReads : nat;
  trace : list Event
}.

(** ** The monad of handlers *)

Inductive Result (A : Type) :=
| Ok (a : A)
| Throw (e : Exn).
Arguments Ok {A} a.
Arguments Throw {A} e.

Definition M (A : Type) : Type := Env -> World -> Result A * World.

Definition ret {A} (a : A) : M A := fun _ w => (Ok a, w).

Definition bind {A B} (c : M A) (k : A -> M B) : M B :=
  fun env w =>
    match c env w with
    | (Ok a, w') => k a env w'
    | (Throw e, w') => (Throw e, w')
    end.

Definition throw {A} (e : Exn) : M A := fun _ w => (Throw e, w).

(** [try { body } catch (e) { handler(e) }] *)
Definition tryCatch {A} (body : M A) (handler : Exn -> M A) : M A :=
  fun env w =>
    match body env w with
    | (Ok a, w') => (Ok a, w')
    | (Throw e, w') => handler e env w'
    end.

(** [try { body } finally { fin }], for a [fin] that does not throw. *)
Definition tryFinally {A} (body : M A) (fin : M unit) : M A :=
  fun env w =>
    let (r, w') := body env w in
    let (_, w'') := fin env w' in
    (r, w'').

Declare Scope handler_scope.
Delimit Scope handler_scope with handler.
Notation "x <- c ;; k" := (bind c (fun x => k))
  (at level 61, c at next level, right associativity) : handler_scope.
Notation "c ;; k" := (bind c (fun _ => k))
  (at level 61, right associativity) : handler_scope.
Local Open Scope handler_scope.

Definition getStore : M AppState := fun _ w => (Ok (store w), w).

Definition setStore (f : AppState -> AppState) : M unit :=
  fun _ w =>
    (Ok tt, {| store := f (store w); chat := chat w;
               clockReads := clockReads w; statusReads := statusReads w;
               trace := trace w |}).

Definition setChat (f : ChatState -> ChatState) : M unit :=
  fun _ w =>
    (Ok tt, {| store := store w; chat := f (chat w);
               clockReads := clockReads w; statusReads := statusReads w;
               trace := trace w |}).

Definition log (e : Event) : M unit :=
  fun _ w =>
    (Ok tt, {| store := store w; chat := chat w;
               clockReads := clockReads w; statusReads := statusReads w;
               trace := trace w ++ [e] |}).

(** [Date.now()] and [new Date()]: the next clock reading. *)
Definition now : M Time :=
  fun env w =>
    (Ok (clock env (clockReads w)),
     {| store := store w; chat := chat w;
        clockReads := S (clockReads w); statusReads := statusReads w;
        trace := trace w |}).

(** [await] of a request whose answer the environment holds. *)
Definition await {A} (answer : Env -> Exn + A) : M A :=
  fun env w =>
    match answer env with
    | inr a => (Ok a, w)
    | inl e => (Throw e, w)
    end.

(** ** Store actions ([store]) *)

Definition with_threads (s : AppState) (ts : list Thread)
    (a : option Thread) : AppState :=
  {| configurations := configurations s;
     activeConfiguration := activeConfiguration s;
     threads := ts; activeThread := a;
     messages := messages s; isLoading := isLoading s;
     darkMode := darkMode s |}.

Definition with_messages (s : AppState) (ms : list Message) : AppState :=
  {| configurations := configurations s;
     activeConfiguration := activeConfiguration s;
     threads := threads s; activeThread := activeThread s;
     messages := ms; isLoading := isLoading s;
     darkMode := darkMode s |}.

Definition with_isLoading (s : AppState) (b : bool) : AppState :=
  {| configurations := configurations s;
     activeConfiguration := activeConfiguration s;
     threads := threads s; activeThread := activeThread s;
     messages := messages s; isLoading := b;
     darkMode := darkMode s |}.

Definition with_lastUpdated (t : Thread) (d : Time) : Thread :=
  {| threadId := threadId t; name := name t; createdAt := createdAt t;
     lastUpdated := d; isActive := isActive t |}.

Definition with_name (t : Thread) (n : string) : Thread :=
  {| threadId := threadId t; name := n; createdAt := createdAt t;
     lastUpdated := lastUpdated t; isActive := isActive t |}.

Definition with_id (m : Message) (i : Time) : Message :=
  {| msg_id := Some i; msg_threadId := msg_threadId m;
     content := content m; role := role m; timestamp := timestamp m;
     attachments := attachments m |}.

(** The state update of [updateThread]: every thread with the identifier
    is replaced, and the active thread too when it has the identifier. *)
Definition replaceThread (thread : Thread) (s : AppState) : AppState :=
  with_threads s
    (map (fun t => if String.eqb (threadId t) (threadId thread)
                   then thread else t) (threads s))
    (match activeThread s with
     | Some a => if String.eqb (threadId a) (threadId thread)
                 then Some thread else Some a
     | None => None
     end).

Definition updateThread (thread : Thread) : M unit :=
  log (StoreUpdateThread thread) ;;
  setStore (replaceThread thread).

Definition addThread (thread : Thread) : M unit :=
  setStore (fun s => with_threads s (threads s ++ [thread]) (Some thread)).

Definition addMessage (message : Message) : M unit :=
  i <- now ;;
  let newMessage := with_id message i in
  log (StoreAddMessage newMessage) ;;
  setStore (fun s => with_messages s (messages s ++ [newMessage])) ;;
  s <- getStore ;;
  match find (fun t => String.eqb (threadId t) (msg_threadId message))
             (threads s) with
  | Some thread =>
      d <- now ;;
      updateThread (with_lastUpdated thread d)
  | None => ret tt
  end.

Definition getThreadMessages (tid : string) (s : AppState) : list Message :=
  filter (fun m => String.eqb (msg_threadId m) tid) (messages s).

Definition setLoading (b : bool) : M unit :=
  setStore (fun s => with_isLoading s b).

(** ** Gateway ([services/api]) *)

Definition status_is (e : Exn) (code : Z) : bool :=
  match response_status e with
  | Some c => Z.eqb c code
  | None => false
  end.

(** [error.response?.data?.error?.message || fallback] *)
Definition detail_or (e : Exn) (fallback : string) : string :=
  match response_error_message e with
  | Some m => if JS.truthy m then m else fallback
  | None => fallback
  end.

Definition sendMessage (config : Configuration) (tid : string)
    (content : string) (fileIds_arg : option (list string)) : M unit :=
  let fileIds := match fileIds_arg with Some l => l | None => [] end in
  tryCatch
    (let payload :=
       {| mp_role := user; mp_content := content;
          file_ids := if (0 <? length fileIds)%nat then Some fileIds
                      else None |} in
     log (HttpPostMessage tid payload) ;;
     await post_message)
    (fun error =>
       if isAxiosError error && status_is error 404 then
         throw (Error ("Thread " ++ tid
                       ++ " not found. It may have expired or been deleted.")%string)
       else if isAxiosError error && status_is error 401 then
         throw (Error "Authentication failed. Please check your API key.")
       else if isAxiosError error && status_is error 400 then
         throw (Error ("Bad request: "
                       ++ detail_or error "Invalid request format")%string)
       else throw (Error "Failed to send message. Please try again.")).

Definition runAssistant (config : Configuration) (tid : string)
    : M OpenAIRunResponse :=
  tryCatch
    (let runPayload :=
       {| assistant_id := assistantId config;
          rp_model := if JS.truthy (model config) then Some (model config)
                      else None |} in
     log (HttpPostRun tid runPayload) ;;
     await post_run)
    (fun error =>
       if isAxiosError error && status_is error 404 then
         throw (Error ("Thread " ++ tid ++ " or assistant not found.")%string)
       else if isAxiosError error && status_is error 400 then
         throw (Error ("Bad request: "
                       ++ detail_or error "Invalid request")%string)
       else throw (Error "Failed to run assistant. Please try again.")).

(** The answer to the next status read. *)
Definition nextStatusRead : M OpenAIRunResponse :=
  fun env w =>
    let w' := {| store := store w; chat := chat w;
                 clockReads := clockReads w;
                 statusReads := S (statusReads w); trace := trace w |} in
    match get_run env (statusReads w) with
    | inr r => (Ok r, w')
    | inl e => (Throw e, w')
    end.

Definition checkRunStatus (config : Configuration) (tid rid : string)
    : M OpenAIRunResponse :=
  tryCatch
    (log (HttpGetRun tid rid) ;;
     nextStatusRead)
    (fun error => throw error).

Definition getMessages (config : Configuration) (tid : string)
    : M OpenAIMessagesListResponse :=
  tryCatch
    (log (HttpGetMessages tid) ;;
     await get_messages)
    (fun error => throw error).

Definition createCompletion (config : Configuration)
    (history : list ChatMessage) : M CompletionResponse :=
  tryCatch
    (let requestData :=
       {| req_model := model config; req_messages := history;
          temperature := (7, 10)%Z; max_tokens := 1000%Z |} in
     log (HttpPostCompletion requestData) ;;
     await post_completion)
    (fun error => throw error).

Definition sendWebhook (url : string) (body : WebhookData) : M bool :=
  tryCatch
    (log (HttpPostWebhook url body) ;;
     await post_webhook ;;
     ret true)
    (fun _ => ret false).

(** ** The chat component ([ChatInterface.tsx]) *)

Definition setInput (v : string) : M unit :=
  setChat (fun u => {| input := v; fileAttachments := fileAttachments u;
                       error := error u; runId := runId u |}).

Definition setFileAttachments (v : list File) : M unit :=
  setChat (fun u => {| input := input u; fileAttachments := v;
                       error := error u; runId := runId u |}).

Definition setError (v : option string) : M unit :=
  setChat (fun u => {| input := input u;
                       fileAttachments := fileAttachments u;
                       error := v; runId := runId u |}).

Definition setRunId (v : option string) : M unit :=
  setChat (fun u => {| input := input u;
                       fileAttachments := fileAttachments u;
                       error := error u; runId := v |}).

(** What the handlers of one render close over. *)
Record Closure := {
  c_activeThread : option Thread;
  c_activeConfiguration : option Configuration;
  c_threadMessages : list Message;
  c_input : string;
  c_fileAttachments : list File
}.

(** The values a render of the component binds, from the store and the
    component state at that moment. *)
Definition render (s : AppState) (u : ChatState) : Closure :=
  {| c_activeThread := activeThread s;
     c_activeConfiguration := activeConfiguration s;
     c_threadMessages :=
       match activeThread s with
       | Some t => getThreadMessages (threadId t) s
       | None => []
       end;
     c_input := input u;
     c_fileAttachments := fileAttachments u |}.

Definition RunStatus_eqb (a b : RunStatus) : bool :=
  match a, b with
  | queued, queued | in_progress, in_progress | completed, completed
  | requires_action, requires_action | failed, failed
  | cancelled, cancelled | expired, expired => true
  | _, _ => false
  end.

Definition maxPolls : nat := 60.

(** The condition of the polling [while]. *)
Definition keepPolling (runStatus : RunStatus) (pollCount : nat) : bool :=
  negb (RunStatus_eqb runStatus completed)
  && negb (RunStatus_eqb runStatus failed)
  && negb (RunStatus_eqb runStatus cancelled)
  && (pollCount <? maxPolls)%nat.

(** The polling [while] loop, returning the final [runStatus] and
    [pollCount].  [fuel] bounds the unfolding; [maxPolls] is always enough
    ([pollWhile_fuel] below). *)
Fixpoint pollWhile (fuel : nat) (config : Configuration) (tid rid : string)
    (runStatus : RunStatus) (pollCount : nat) : M (RunStatus * nat) :=
  if keepPolling runStatus pollCount then
    match fuel with
    | O => ret (runStatus, pollCount)
    | S fuel' =>
        log (Sleep 1000) ;;
        statusResponse <- checkRunStatus config tid rid ;;
        pollWhile fuel' config tid rid (status statusResponse) (S pollCount)
    end
  else ret (runStatus, pollCount).

Definition newline : string := String "010"%char EmptyString.

(** The text of a fetched message: its [text] parts, each [text?.value]
    or the empty string, joined by line feeds. *)
Definition extractText (parts : list ContentPart) : string :=
  JS.join newline
    (map (fun c => match text c with
                   | Some t => value t
                   | None => ""
                   end)
         (filter (fun c => String.eqb (type c) "text") parts)).

Definition updateThreadNameIfNeeded (c : Closure) (userInput : string)
    : M unit :=
  match c_activeThread c with
  | None => ret tt
  | Some activeThread =>
      if JS.startsWith (name activeThread) "Thread " then
        let firstFewWords :=
          JS.join " " (JS.slice_to 4 (JS.split " "%char userInput)) in
        let newName := (firstFewWords ++ "...")%string in
        updateThread (with_name activeThread newName)
      else ret tt
  end.

(** The webhook is started and not awaited: its outcome is dropped. *)
Definition sendWebhookIfConfigured (c : Closure) (userInput : string)
    : M unit :=
  match c_activeConfiguration c, c_activeThread c with
  | Some activeConfiguration, Some activeThread =>
      if JS.truthy (webhookURL activeConfiguration) then
        d <- now ;;
        _ <- sendWebhook (webhookURL activeConfiguration)
               {| userName := "User"; prompt := userInput;
                  wh_timestamp := d;
                  wh_model := model activeConfiguration;
                  wh_threadId := threadId activeThread |} ;;
        ret tt
      else ret tt
  | _, _ => ret tt
  end.

(** The [if]/[else if] chain that follows the polling loop. *)
Definition afterPolling (c : Closure) (activeConfiguration : Configuration)
    (activeThread : Thread) (userInput : string) (runStatus : RunStatus)
    : M unit :=
  match runStatus with
  | completed =>
      messagesResponse <- getMessages activeConfiguration
                            (threadId activeThread) ;;
      match find (fun m => Role_eqb (omr_role m) assistant)
                 (data messagesResponse) with
      | Some assistantMessage =>
          let content := extractText (omr_content assistantMessage) in
          d <- now ;;
          addMessage
            {| msg_id := None;
               msg_threadId := threadId activeThread;
               content := content; role := assistant;
               timestamp := d; attachments := [] |} ;;
          updateThreadNameIfNeeded c userInput ;;
          sendWebhookIfConfigured c userInput
      | None =>
          throw (Error "No assistant response found in the thread")
      end
  | failed => throw (Error "Assistant run failed. Please try again.")
  | cancelled => throw (Error "Assistant run was cancelled.")
  | _ => throw (Error "Assistant run timed out. Please try again.")
  end.

Definition handleAssistantWorkflow (c : Closure) (userInput : string)
    : M unit :=
  match c_activeConfiguration c, c_activeThread c with
  | Some activeConfiguration, Some activeThread =>
      tryCatch
        (let fileIds :=
           if (0 <? length (c_fileAttachments c))%nat then Some []
           else None in
         sendMessage activeConfiguration (threadId activeThread)
           userInput fileIds ;;
         runResponse <- runAssistant activeConfiguration
                          (threadId activeThread) ;;
         setRunId (Some (run_id runResponse)) ;;
         polled <- pollWhile maxPolls activeConfiguration
                     (threadId activeThread) (run_id runResponse)
                     (status runResponse) 0 ;;
         afterPolling c activeConfiguration activeThread userInput
           (fst polled))
        (fun error => throw error)
  | _, _ => ret tt
  end.

(** [response.choices[0]?.message?.content] *)
Definition firstChoiceContent (response : CompletionResponse)
    : option string :=
  match choices response with
  | ch :: _ => match choice_message ch with
               | Some m => Some (cm_content m)
               | None => None
               end
  | [] => None
  end.

Definition handleDirectCompletionWorkflow (c : Closure) (userInput : string)
    : M unit :=
  match c_activeConfiguration c, c_activeThread c with
  | Some activeConfiguration, Some activeThread =>
      tryCatch
        (let conversationHistory :=
           map (fun msg => {| cm_role := role msg;
                              cm_content := content msg |})
               (c_threadMessages c) in
         let limitedHistory := JS.slice_last 10 conversationHistory in
         response <- createCompletion activeConfiguration
                       (limitedHistory
                          ++ [{| cm_role := user;
                                 cm_content := userInput |}]) ;;
         match firstChoiceContent response with
         | Some assistantResponse =>
             if JS.truthy assistantResponse then
               d <- now ;;
               addMessage
                 {| msg_id := None;
                    msg_threadId := threadId activeThread;
                    content := assistantResponse; role := assistant;
                    timestamp := d; attachments := [] |} ;;
               updateThreadNameIfNeeded c userInput ;;
               sendWebhookIfConfigured c userInput
             else throw (Error "No response received from the model")
         | None => throw (Error "No response received from the model")
         end)
        (fun error => throw error)
  | _, _ => ret tt
  end.

(** [error.message || 'Failed to send message. Please try again.'] *)
Definition shownMessage (e : Exn) : string :=
  if JS.truthy (message e) then message e
  else "Failed to send message. Please try again.".

(** The guard [!input.trim() || !activeThread || !activeConfiguration]
    is the two matches and the test below; focusing the input field,
    which touches neither store nor gateway, is left out. *)
Definition handleSendMessage (c : Closure) : M unit :=
  match c_activeThread c, c_activeConfiguration c with
  | Some activeThread, Some activeConfiguration =>
      if negb (JS.truthy (JS.trim (c_input c))) then ret tt
      else
        tryFinally
          (tryCatch
             (setLoading true ;;
              setError None ;;
              d <- now ;;
              addMessage
                {| msg_id := None;
                   msg_threadId := threadId activeThread;
                   content := c_input c; role := user;
                   timestamp := d; attachments := [] |} ;;
              setInput "" ;;
              setFileAttachments [] ;;
              if useAssistantApi activeConfiguration
                 && JS.truthy (assistantId activeConfiguration)
              then handleAssistantWorkflow c (c_input c)
              else handleDirectCompletionWorkflow c (c_input c))
             (fun error => setError (Some (shownMessage error))))
          (setLoading false)
  | _, _ => ret tt
  end.

(** ** One turn

    The user presses send: the handler of the latest render runs on the
    current store and component state, against the environment [env]. *)

Definition begin (s : AppState) (u : ChatState) : World :=
  {| store := s; chat := u; clockReads := 0; statusReads := 0;
     trace := [] |}.

Definition turn (env : Env) (s : AppState) (u : ChatState) : World :=
  snd (handleSendMessage (render s u) env (begin s u)).

(** The send button's guard, on the store and component state. *)
Definition validated (s : AppState) (u : ChatState) : bool :=
  JS.truthy (JS.trim (input u))
  && match activeThread s with Some _ => true | None => false end
  && match activeConfiguration s with Some _ => true | None => false end.

(** The workflow selected by the configuration. *)
Definition assisted (s : AppState) : bool :=
  match activeConfiguration s with
  | Some cfg => useAssistantApi cfg && JS.truthy (assistantId cfg)
  | None => false
  end.

(** ** Thread creation ([ThreadList.tsx]): the default name *)

Definition decimal (n : nat) : string :=
  DecimalString.NilZero.string_of_uint (Nat.to_uint n).

(** The thread record [handleCreateThread] adds, for the identifier
    obtained from the gateway or generated locally. *)
Definition newThread (s : AppState) (tid : string) (d1 d2 : Time) : Thread :=
  {| threadId := tid;
     name := ("Thread " ++ decimal (length (threads s) + 1))%string;
     createdAt := d1; lastUpdated := d2; isActive := true |}.

(** ** Observations on a turn *)

Definition isStatusRead (e : Event) : bool :=
  match e with HttpGetRun _ _ => true | _ => false end.

Definition isListMessages (e : Event) : bool :=
  match e with HttpGetMessages _ => true | _ => false end.

(** The number of run-status reads in a log. *)
Definition statusReadsIn (tr : list Event) : nat :=
  length (filter isStatusRead tr).

(** The status reads and message-list reads of a log, in order. *)
Definition pollAndList (tr : list Event) : list Event :=
  filter (fun e => isStatusRead e || isListMessages e) tr.

(** The histories of the completion requests of a log, in order. *)
Fixpoint completionHistories (tr : list Event) : list (list ChatMessage) :=
  match tr with
  | [] => []
  | HttpPostCompletion req :: tr' => req_messages req :: completionHistories tr'
  | _ :: tr' => completionHistories tr'
  end.

(** The messages a log appends to the store, in order. *)
Fixpoint appendedMessages (tr : list Event) : list Message :=
  match tr with
  | [] => []
  | StoreAddMessage m :: tr' => m :: appendedMessages tr'
  | _ :: tr' => appendedMessages tr'
  end.

Definition isAssistantMessage (m : Message) : bool :=
  Role_eqb (role m) assistant.

(** The assistant messages a log appends to the store. *)
Definition assistantAppends (tr : list Event) : list Message :=
  filter isAssistantMessage (appendedMessages tr).

(** An event carries no attachment: an appended message has an empty
    attachment list, a posted message has no [file_ids]. *)
Definition attachmentFree (e : Event) : Prop :=
  match e with
  | StoreAddMessage m => attachments m = []
  | HttpPostMessage _ p => file_ids p = None
  | _ => True
  end.

(** Every character of the string is white space (so is the empty
    string's). *)
Fixpoint onlyWhiteSpace (s : string) : bool :=
  match s with
  | EmptyString => true
  | String c s' => JS.isWhiteSpace c && onlyWhiteSpace s'
  end.

(** The user's message as the store records it in a turn on thread [th]. *)
Definition userMessage (env : Env) (th : Thread) (u : ChatState) : Message :=
  {| msg_id := Some (clock env 1); msg_threadId := threadId th;
     content := input u; role := user; timestamp := clock env 0;
     attachments := [] |}.

Definition toChatMessage (msg : Message) : ChatMessage :=
  {| cm_role := role msg; cm_content := content msg |}.

Definition isAssistantEntry (m : OpenAIMessageResponse) : bool :=
  Role_eqb (omr_role m) assistant.

(** *** The run's statuses *)

(** The statuses that end the polling loop. *)
Definition terminal (st : RunStatus) : bool :=
  match st with
  | completed | failed | cancelled => true
  | _ => false
  end.

(** The status the loop holds after [k] status reads of a run started
    with [r0]: the start response's own status before any read; nothing
    when the [k]-th read fails. *)
Definition statusAfter (env : Env) (r0 : OpenAIRunResponse) (k : nat)
    : option RunStatus :=
  match k with
  | O => Some (status r0)
  | S j => match get_run env j with
           | inr r => Some (status r)
           | inl _ => None
           end
  end.

(** After [k] reads the run is still pending: a status was obtained and
    it is not terminal. *)
Definition pendingAt (env : Env) (r0 : OpenAIRunResponse) (k : nat) : bool :=
  match statusAfter env r0 k with
  | Some st => negb (terminal st)
  | None => false
  end.

(** The run is pending after each of 0, ..., [k - 1] reads. *)
Definition allPending (env : Env) (r0 : OpenAIRunResponse) (k : nat) : bool :=
  forallb (pendingAt env r0) (seq 0 k).

(** *** The polling loop as a relation

    [Polls env k st pc n res]: started with [runStatus = st] and
    [pollCount = pc], when the next status read is the [k]-th, the loop
    issues [n] reads and ends with [res]. *)
Inductive Polls (env : Env)
  : nat -> RunStatus -> nat -> nat -> Result (RunStatus * nat) -> Prop :=
| Polls_stop k st pc :
    keepPolling st pc = false ->
    Polls env k st pc 0 (Ok (st, pc))
| Polls_fail k st pc e :
    keepPolling st pc = true -> get_run env k = inl e ->
    Polls env k st pc 1 (Throw e)
| Polls_next k st pc r n res :
    keepPolling st pc = true -> get_run env k = inr r ->
    Polls env (S k) (status r) (S pc) n res ->
    Polls env k st pc (S n) res.

Definition pollEvents (n : nat) (tid rid : string) : list Event :=
  concat (repeat [Sleep 1000; HttpGetRun tid rid] n).

(** The world after [n] rounds of the loop. *)
Definition polled (n : nat) (tid rid : string) (w : World) : World :=
  {| store := store w; chat := chat w; clockReads := clockReads w;
     statusReads := statusReads w + n;
     trace := trace w ++ pollEvents n tid rid |}.

(** *** Postconditions

    [post c env w Q]: running [c] from [w] ends in a result and a world
    that satisfy [Q]. *)
Definition post {A} (c : M A) (env : Env) (w : World)
    (Q : Result A -> World -> Prop) : Prop :=
  Q (fst (c env w)) (snd (c env w)).

(** *** Independence from the webhook's outcome *)

(** An environment with another outcome of the webhook delivery. *)
Definition withWebhook (env : Env) (outcome : Exn + unit) : Env :=
  {| clock := clock env; post_message := post_message env;
     post_run := post_run env; get_run := get_run env;
     get_messages := get_messages env;
     post_completion := post_completion env;
     post_webhook := outcome |}.

(** Two environments that differ at most in the outcome of the webhook
    delivery. *)
Definition sameButWebhook (e1 e2 : Env) : Prop :=
  clock e1 = clock e2
  /\ post_message e1 = post_message e2
  /\ post_run e1 = post_run e2
  /\ get_run e1 = get_run e2
  /\ get_messages e1 = get_messages e2
  /\ post_completion e1 = post_completion e2.

(** A computation whose result and final world do not depend on the
    outcome of the webhook delivery. *)
Definition webhookBlind {A} (c : M A) : Prop :=
  forall e1 e2 w, sameButWebhook e1 e2 -> c e1 w = c e2 w.

(** *** The reply as the specification words it *)

(** Following the spec's words: "the most recently added
    assistant-authored entry" of the fetched list, whatever the order of
    the list: the assistant entry with the greatest creation time. *)
Fixpoint spec_mostRecentAssistant (entries : list OpenAIMessageResponse)
    : option OpenAIMessageResponse :=
  match entries with
  | [] => None
  | m :: rest =>
      if isAssistantEntry m then
        match spec_mostRecentAssistant rest with
        | Some b => if (created_at m <? created_at b)%Z then Some b
                    else Some m
        | None => Some m
        end
      else spec_mostRecentAssistant rest
  end.

(** Following the spec's words: "its text segments are concatenated in
    order (non-text segments are ignored) to form the reply body". *)
Definition spec_replyBody (entries : list OpenAIMessageResponse)
    : option string :=
  match spec_mostRecentAssistant entries with
  | Some m =>
      Some (String.concat ""
              (map (fun c => match text c with
                             | Some t => value t
                             | None => ""
                             end)
                   (filter (fun c => String.eqb (type c) "text")
                           (omr_content m))))
  | None => None
  end.

(** *** The context window as the specification words it *)

(** Following the spec's words: the "prior turns of the active
    Conversation, oldest first, each carrying only role and text": the
    stored messages of the conversation, in the order they were stored,
    each reduced to role and text. *)
Fixpoint spec_priorTurns (tid : string) (ms : list Message)
    : list ChatMessage :=
  match ms with
  | [] => []
  | m :: rest =>
      if String.eqb (msg_threadId m) tid
      then {| cm_role := role m; cm_content := content m |}
           :: spec_priorTurns tid rest
      else spec_priorTurns tid rest
  end.

(** Following the spec's words: "the most recent [n]" of a sequence that
    is oldest first, still oldest first: counted from the newest end. *)
Definition spec_mostRecent {A} (n : nat) (xs : list A) : list A :=
  rev (firstn n (rev xs)).

(** The fetched list is ordered newest first. *)
Definition newestFirst (entries : list OpenAIMessageResponse) : Prop :=
  StronglySorted (fun a b => (created_at b <= created_at a)%Z) entries.

(** *** Naming *)

(** The name the naming heuristic derives from an input. *)
Definition derivedName (userInput : string) : string :=
  (JS.join " " (JS.slice_to 4 (JS.split " "%char userInput)) ++ "...")%string.

(** The name of the active thread. *)
Definition activeName (s : AppState) : option string :=
  match activeThread s with
  | Some a => Some (name a)
  | None => None
  end.

(** The active thread and its entries in the thread list carry the same
    name (the store actions keep it so). *)
Definition namesSynced (s : AppState) : Prop :=
  forall a t, activeThread s = Some a -> In t (threads s) ->
              threadId t = threadId a -> name t = name a.

(** The store still shows thread [th] under its name: as the active
    thread, in its entries of the thread list, and [names] are the names
    of the list. *)
Definition Keeps (th : Thread) (names : list string) (s : AppState) : Prop :=
  (exists a, activeThread s = Some a
             /\ threadId a = threadId th /\ name a = name th)
  /\ (forall t, In t (threads s) -> threadId t = threadId th ->
                name t = name th)
  /\ map name (threads s) = names.

(** The active thread is still the one with the identifier of [th]. *)
Definition ActiveId (th : Thread) (s : AppState) : Prop :=
  exists a, activeThread s = Some a /\ threadId a = threadId th.

(** What the user does for one turn: types a text, picks files, presses
    send; the environment answers. *)
Record Submission := {
  sub_env : Env;
  sub_input : string;
  sub_files : list File
}.

Definition submit (x : Submission) (su : AppState * ChatState)
    : AppState * ChatState :=
  let u := {| input := sub_input x; fileAttachments := sub_files x;
              error := error (snd su); runId := runId (snd su) |} in
  let w := turn (sub_env x) (fst su) u in
  (store w, chat w).

Definition submitAll (xs : list Submission) (su : AppState * ChatState)
    : AppState * ChatState :=
  fold_left (fun acc x => submit x acc) xs su.

(** Following the spec's words: "the first four whitespace-separated
    tokens of the user input": maximal runs of characters that are not
    white space. *)
Fixpoint spec_tokens (s : string) (word : string) : list string :=
  match s with
  | EmptyString => if String.eqb word "" then [] else [word]
  | String c s' =>
      if JS.isWhiteSpace c then
        if String.eqb word "" then spec_tokens s' ""
        else word :: spec_tokens s' ""
      else spec_tokens s' (word ++ String c "")%string
  end.

(** Following the spec's words: the tokens "suffixed with an ellipsis". *)
Definition spec_autoName (userInput : string) : string :=
  (String.concat " " (firstn 4 (spec_tokens userInput "")) ++ "...")%string.

Fixpoint allDigits (s : string) : bool :=
  match s with
  | EmptyString => true
  | String c s' =>
      (48 <=? nat_of_ascii c)%nat && (nat_of_ascii c <=? 57)%nat
      && allDigits s'
  end.

(** The pattern of the names [handleCreateThread] assigns: "Thread "
    followed by a decimal number. *)
Definition matchesDefaultPattern (n : string) : bool :=
  JS.startsWith n "Thread "
  && negb (String.eqb (substring 7 (String.length n - 7) n) "")
  && allDigits (substring 7 (String.length n - 7) n).

(** ** Scenarios

    Concrete stores, component states and environments on which the
    statements below are evaluated. *)

Definition directConfig : Configuration :=
  {| cfg_id := Some "1"; apiKey := "sk-test"; assistantId := "";
     vectorStoreId := ""; model := "gpt-4"; isDefault := true;
     cfg_name := "direct"; webhookURL := ""; useAssistantApi := false |}.

Definition assistedConfig : Configuration :=
  {| cfg_id := Some "2"; apiKey := "sk-test"; assistantId := "asst_1";
     vectorStoreId := ""; model := "gpt-4"; isDefault := true;
     cfg_name := "assisted"; webhookURL := "https://hook.example/notify";
     useAssistantApi := true |}.

Definition thread1 : Thread :=
  {| threadId := "thread_1"; name := "Thread 1"; createdAt := 1000%Z;
     lastUpdated := 1000%Z; isActive := true |}.

(** A store with one thread, active and without messages. *)
Definition emptyConversation (cfg : Configuration) : AppState :=
  {| configurations := [cfg]; activeConfiguration := Some cfg;
     threads := [thread1]; activeThread := Some thread1;
     messages := []; isLoading := false; darkMode := false |}.

(** A store without threads. *)
Definition noThread (cfg : Configuration) : AppState :=
  {| configurations := [cfg]; activeConfiguration := Some cfg;
     threads := []; activeThread := None;
     messages := []; isLoading := false; darkMode := false |}.

(** A store without configurations. *)
Definition noConfiguration : AppState :=
  {| configurations := []; activeConfiguration := None;
     threads := [thread1]; activeThread := Some thread1;
     messages := []; isLoading := false; darkMode := false |}.

(** A store whose only thread has been given a name of its own. *)
Definition namedConversation (cfg : Configuration) : AppState :=
  {| configurations := [cfg]; activeConfiguration := Some cfg;
     threads := [with_name thread1 "Rust notes"];
     activeThread := Some (with_name thread1 "Rust notes");
     messages := []; isLoading := false; darkMode := false |}.

(** A thread with twelve earlier messages, numbered 1 to 12, and one
    message of another thread in between. *)
Definition numbered (tid : string) (i : nat) : Message :=
  {| msg_id := Some (Z.of_nat i); msg_threadId := tid;
     content := decimal i;
     role := if Nat.even i then assistant else user;
     timestamp := Z.of_nat i; attachments := [] |}.

Definition longConversation (cfg : Configuration) : AppState :=
  {| configurations := [cfg]; activeConfiguration := Some cfg;
     threads := [thread1]; activeThread := Some thread1;
     messages := map (numbered "thread_1") (seq 1 6)
                   ++ [numbered "thread_2" 99]
                   ++ map (numbered "thread_1") (seq 7 6);
     isLoading := false; darkMode := false |}.

Definition typed (text : string) : ChatState :=
  {| input := text; fileAttachments := []; error := None; runId := None |}.

(** An input with a double space and a tab. *)
Definition spacedInput : string :=
  String "a" (String " " (String " " (String "b" (String "009" "c d e")))).

Definition textPart (v : string) : ContentPart :=
  {| type := "text"; text := Some {| value := v |} |}.

Definition imagePart : ContentPart :=
  {| type := "image_file"; text := None |}.

Definition run (st : RunStatus) : OpenAIRunResponse :=
  {| run_id := "run_1"; status := st |}.

Definition reply (text : string) : CompletionResponse :=
  {| choices := [{| choice_message :=
                      Some {| cm_role := assistant; cm_content := text |} |}] |}.

(** An environment whose status reads answer with [statuses] in order and
    with [in_progress] from then on, whose message list is [entries] and
    whose completion is [completion]; the clock advances by one second
    per reading. *)
Definition scripted (statuses : list RunStatus)
    (entries : list OpenAIMessageResponse) (completion : string) : Env :=
  {| clock := fun k => (5000 + 1000 * Z.of_nat k)%Z;
     post_message := inr tt;
     post_run := inr (run queued);
     get_run := fun k => inr (run (nth k statuses in_progress));
     get_messages := inr {| data := entries |};
     post_completion := inr (reply completion);
     post_webhook := inr tt |}.

(** The run reports queued, in_progress, in_progress, completed; the
    thread then holds one assistant entry. *)
Definition completesAfterFour : Env :=
  scripted [queued; in_progress; in_progress; completed]
    [{| omr_id := "msg_1"; created_at := 10%Z; omr_role := assistant;
        omr_content := [textPart "Hi there"] |}] "".

(** The run stays in_progress for ever. *)
Definition neverCompletes : Env := scripted [] [] "".

Definition says (text : string) (answer : string) : Submission :=
  {| sub_env := scripted [] [] answer; sub_input := text; sub_files := [] |}.

(** A thread with two assistant answers, listed oldest first. *)
Definition oldestFirstEntries : list OpenAIMessageResponse :=
  [{| omr_id := "msg_1"; created_at := 10%Z; omr_role := assistant;
      omr_content := [textPart "First"; imagePart; textPart "answer"] |};
   {| omr_id := "msg_2"; created_at := 20%Z; omr_role := user;
      omr_content := [textPart "Hello again"] |};
   {| omr_id := "msg_3"; created_at := 30%Z; omr_role := assistant;
      omr_content := [textPart "Second answer"] |}].

(** The same thread, listed newest first. *)
Definition newestFirstEntries : list OpenAIMessageResponse :=
  rev oldestFirstEntries.

(** A thread without assistant entry. *)
Definition userOnlyEntries : list OpenAIMessageResponse :=
  [{| omr_id := "msg_2"; created_at := 20%Z; omr_role := user;
      omr_content := [textPart "Hello again"] |}].

(** ** The other store actions ([store]) *)

(** [Date.now().toString()]: the decimal rendering of the reading. *)
Definition decimalZ (z : Z) : string :=
  DecimalString.NilZero.string_of_int (Z.to_int z).

Definition with_configurations (s : AppState) (cs : list Configuration)
    (a : option Configuration) : AppState :=
  {| configurations := cs; activeConfiguration := a;
     threads := threads s; activeThread := activeThread s;
     messages := messages s; isLoading := isLoading s;
     darkMode := darkMode s |}.

(** The record [addConfiguration] stores for the argument [config]:
    [{ ...config, id, useAssistantApi }].  [given] is the argument's
    [useAssistantApi] property, [None] when it is undefined (a
    configuration from before the flag existed), in which case the flag
    is [!!config.assistantId]; the argument's other properties are those
    of [config]. *)
Definition newConfiguration (config : Configuration) (given : option bool)
    (i : string) : Configuration :=
  {| cfg_id := Some i; apiKey := apiKey config;
     assistantId := assistantId config;
     vectorStoreId := vectorStoreId config; model := model config;
     isDefault := isDefault config; cfg_name := cfg_name config;
     webhookURL := webhookURL config;
     useAssistantApi := match given with
                        | Some flag => flag
                        | None => JS.truthy (assistantId config)
                        end |}.

(** [a === b] on optional identifiers ([undefined] equals itself). *)
Definition id_eqb (a b : option string) : bool :=
  match a, b with
  | Some x, Some y => String.eqb x y
  | None, None => true
  | _, _ => false
  end.

(** [state.activeConfiguration?.id === id] *)
Definition activeConfigurationHas (s : AppState) (i : option string) : bool :=
  match activeConfiguration s with
  | Some a => id_eqb (cfg_id a) i
  | None => id_eqb None i
  end.

Definition addConfiguration (config : Configuration) (given : option bool)
    : M unit :=
  i <- now ;;
  let newConfig := newConfiguration config given (decimalZ i) in
  setStore (fun s =>
    with_configurations s (configurations s ++ [newConfig])
      (if isDefault config then Some newConfig
       else activeConfiguration s)).

Definition updateConfiguration (config : Configuration) : M unit :=
  setStore (fun s =>
    with_configurations s
      (map (fun c => if id_eqb (cfg_id c) (cfg_id config) then config else c)
           (configurations s))
      (if activeConfigurationHas s (cfg_id config) then Some config
       else activeConfiguration s)).

(** [deleteConfiguration(id)], for an identifier string. *)
Definition deleteConfiguration (i : string) : M unit :=
  setStore (fun s =>
    with_configurations s
      (filter (fun c => negb (id_eqb (cfg_id c) (Some i))) (configurations s))
      (if activeConfigurationHas s (Some i) then None
       else activeConfiguration s)).

Definition setActiveConfiguration (config : Configuration) : M unit :=
  setStore (fun s => with_configurations s (configurations s) (Some config)).

(** The state update of [deleteThread]: the thread goes, and its
    messages with it. *)
Definition removeThread (tid : string) (s : AppState) : AppState :=
  with_messages
    (with_threads s
       (filter (fun t => negb (String.eqb (threadId t) tid)) (threads s))
       (match activeThread s with
        | Some a => if String.eqb (threadId a) tid then None else Some a
        | None => None
        end))
    (filter (fun m => negb (String.eqb (msg_threadId m) tid)) (messages s)).

Definition deleteThread (tid : string) : M unit :=
  setStore (removeThread tid).

Definition setActiveThread (thread : Thread) : M unit :=
  setStore (fun s => with_threads s (threads s) (Some thread)).

(** [m.id === message.id] on optional message identifiers. *)
Definition msg_id_eqb (a b : option Time) : bool :=
  match a, b with
  | Some x, Some y => Z.eqb x y
  | None, None => true
  | _, _ => false
  end.

Definition updateMessage (message : Message) : M unit :=
  setStore (fun s =>
    with_messages s
      (map (fun m => if msg_id_eqb (msg_id m) (msg_id message)
                     then message else m)
           (messages s))).

(** [deleteMessage(id)], for the identifier of a stored message. *)
Definition deleteMessage (i : Time) : M unit :=
  setStore (fun s =>
    with_messages s
      (filter (fun m => negb (msg_id_eqb (msg_id m) (Some i))) (messages s))).

Definition toggleDarkMode : M unit :=
  setStore (fun s =>
    {| configurations := configurations s;
       activeConfiguration := activeConfiguration s;
       threads := threads s; activeThread := activeThread s;
       messages := messages s; isLoading := isLoading s;
       darkMode := negb (darkMode s) |}).
(** ** Thread creation ([services/api], [ThreadList.tsx]) *)

Record OpenAIThreadResponse := { otr_id : string }.

(** [createThread], for the answer [POST /threads] gets. *)
Definition createThread (config : Configuration)
    (answer : Exn + OpenAIThreadResponse) : M OpenAIThreadResponse :=
  tryCatch
    (await (fun _ => answer))
    (fun error =>
       if isAxiosError error && status_is error 401 then
         throw (Error "Authentication failed. Please check your API key.")
       else if isAxiosError error && status_is error 429 then
         throw (Error "Rate limit exceeded. Please try again later.")
       else if isAxiosError error && status_is error 404 then
         throw (Error "Assistants API not available for your account.")
       else if isAxiosError error && status_is error 500 then
         throw (Error "OpenAI server error. Please try again later.")
       else throw (Error "Failed to create thread. Please try again.")).

(** The [useState] cells of the thread list. *)
Record ThreadListState := {
  isCreating : bool;
  tl_error : option string
}.

(** What the outside answers while a thread is created: the gateway, and
    the user in the [confirm] dialog that offers the fallback. *)
Record CreateAnswers := {
  post_threads : Exn + OpenAIThreadResponse;
  confirmed : bool
}.

(** [`local-${Date.now()}`] *)
Definition localThreadId : M string :=
  d <- now ;;
  ret ("local-" ++ decimalZ d)%string.

(** The [try] block of [handleCreateThread], in a render of the store
    [rendered]; the cells of the thread list are set by the caller
    below. *)
Definition createThreadBody (rendered : AppState)
    (activeConfiguration : Configuration) (answers : CreateAnswers)
    : M unit :=
  setLoading true ;;
  tid <- (if useAssistantApi activeConfiguration
             && JS.truthy (assistantId activeConfiguration)
          then
            tryCatch
              (response <- createThread activeConfiguration
                             (post_threads answers) ;;
               ret (otr_id response))
              (fun err =>
                 if confirmed answers then localThreadId
                 else throw err)
          else localThreadId) ;;
  d1 <- now ;;
  d2 <- now ;;
  addThread (newThread rendered tid d1 d2).

(** [error.message || 'Failed to create thread. Please try again.'] *)
Definition shownCreateMessage (e : Exn) : string :=
  if JS.truthy (message e) then message e
  else "Failed to create thread. Please try again.".

(** [handleCreateThread]: without a configuration an alert and nothing
    else; otherwise the [try] block, the error cell set from what it
    throws, and both loading flags cleared at the end. *)
Definition handleCreateThread (rendered : AppState) (answers : CreateAnswers)
    (t : ThreadListState) (env : Env) (w : World) : World * ThreadListState :=
  match activeConfiguration rendered with
  | None => (w, t)
  | Some activeConfiguration =>
      match createThreadBody rendered activeConfiguration answers env w with
      | (Ok _, w') =>
          (snd (setLoading false env w'),
           {| isCreating := false; tl_error := None |})
      | (Throw e, w') =>
          (snd (setLoading false env w'),
           {| isCreating := false;
              tl_error := Some (shownCreateMessage e) |})
      end
  end.

(** The plus button is pressed on the store [s]. *)
Definition createThreadOn (answers : CreateAnswers) (env : Env)
    (s : AppState) (t : ThreadListState) : AppState * ThreadListState :=
  let r := handleCreateThread s answers t env (begin s (typed "")) in
  (store (fst r), snd r).

(** The request was answered with the HTTP status [code]. *)
Definition rejected (e : Exn) (code : Z) : bool :=
  isAxiosError e && status_is e code.
(** ** Further observations on a turn *)

(** The webhook requests of a log, in order. *)
Fixpoint webhookCalls (tr : list Event) : list (string * WebhookData) :=
  match tr with
  | [] => []
  | HttpPostWebhook url body :: tr' => (url, body) :: webhookCalls tr'
  | _ :: tr' => webhookCalls tr'
  end.

(** The requests of the assisted path. *)
Definition isAssistedRequest (e : Event) : bool :=
  match e with
  | HttpPostMessage _ _ | HttpPostRun _ _ | HttpGetRun _ _
  | HttpGetMessages _ => true
  | _ => false
  end.

Definition isHttp (e : Event) : bool :=
  match e with
  | StoreAddMessage _ | StoreUpdateThread _ | Sleep _ => false
  | _ => true
  end.

(** The HTTP requests of a log, in order. *)
Definition httpEvents (tr : list Event) : list Event := filter isHttp tr.

(** The message post of a turn on thread [th]. *)
Definition messagePost (th : Thread) (u : ChatState) : Event :=
  HttpPostMessage (threadId th)
    {| mp_role := user; mp_content := input u; file_ids := None |}.

(** The run start of a turn on thread [th] under configuration [cfg]. *)
Definition runPost (cfg : Configuration) (th : Thread) : Event :=
  HttpPostRun (threadId th)
    {| assistant_id := assistantId cfg;
       rp_model := if JS.truthy (model cfg) then Some (model cfg)
                   else None |}.

(** The clock never runs backwards. *)
Definition monotone (env : Env) : Prop :=
  forall i j, i <= j -> (clock env i <= clock env j)%Z.

(** The answers of a gateway that rejects the thread creation with the
    HTTP status [code]. *)
Definition rejection (code : Z) : Exn :=
  {| isAxiosError := true;
     message := "Request failed";
     response_status := Some code;
     response_error_message := Some "provider detail" |}.

Definition creationRejected (code : Z) (fallback : bool) : CreateAnswers :=
  {| post_threads := inl (rejection code); confirmed := fallback |}.

Definition creationAccepted (tid : string) : CreateAnswers :=
  {| post_threads := inr {| otr_id := tid |}; confirmed := false |}.

Definition idle : ThreadListState :=
  {| isCreating := false; tl_error := None |}.

(** The thread identifier a creation settles on, if any: the gateway's,
    or a local one (for a direct configuration, or as the accepted
    fallback). *)
Definition settledThreadId (cfg : Configuration) (answers : CreateAnswers)
    (env : Env) : option string :=
  if useAssistantApi cfg && JS.truthy (assistantId cfg) then
    match post_threads answers with
    | inr response => Some (otr_id response)
    | inl _ => if confirmed answers
               then Some ("local-" ++ decimalZ (clock env 0))%string
               else None
    end
  else Some ("local-" ++ decimalZ (clock env 0))%string.

(** ** The attachment chips ([ChatInterface.tsx]) *)

(** [xs.filter((x, i) => keep(x, i))], the indices counted from [i]. *)
Fixpoint filter_index {A} (keep : A -> nat -> bool) (i : nat) (xs : list A)
    : list A :=
  match xs with
  | [] => []
  | x :: rest =>
      if keep x i then x :: filter_index keep (S i) rest
      else filter_index keep (S i) rest
  end.

(** The click on the cross of chip [index]:
    [fileAttachments.filter((_, i) => i !== index)]. *)
Definition removeAttachment (index : nat) (files : list File) : list File :=
  filter_index (fun _ i => negb (Nat.eqb i index)) 0 files.

(** [handleFileChange]: the picked files replace the selection. *)
Definition handleFileChange (picked : option (list File)) : M unit :=
  match picked with
  | Some files => setFileAttachments files
  | None => ret tt
  end.

(** An environment like [scripted [] newestFirstEntries "Hi"] but for the
    answers to the message post, the run start and the status reads. *)
Definition answering (post_m : Exn + unit)
    (post_r : Exn + OpenAIRunResponse)
    (reads : nat -> Exn + OpenAIRunResponse) : Env :=
  {| clock := fun k => (5000 + 1000 * Z.of_nat k)%Z;
     post_message := post_m;
     post_run := post_r;
     get_run := reads;
     get_messages := inr {| data := newestFirstEntries |};
     post_completion := inr (reply "Hi");
     post_webhook := inr tt |}.

(** A network failure, without response. *)
Definition networkError : Exn :=
  {| isAxiosError := true; message := "Network Error";
     response_status := None; response_error_message := None |}.

(** The third status read fails. *)
Definition thirdReadFails : Env :=
  answering (inr tt) (inr (run queued))
    (fun k => if Nat.eqb k 2 then inl networkError
              else inr (run in_progress)).

(** The run is cancelled at the second read. *)
Definition cancelledAtSecond : Env :=
  answering (inr tt) (inr (run queued))
    (fun k => inr (run (nth k [in_progress; cancelled] in_progress))).

(** A completion response with one choice per text, in order. *)
Definition replies (texts : list string) : CompletionResponse :=
  {| choices :=
       map (fun t => {| choice_message :=
                          Some {| cm_role := assistant; cm_content := t |} |})
           texts |}.

(** An environment whose completion request is answered with
    [response]. *)
Definition completing (response : CompletionResponse) : Env :=
  {| clock := fun k => (5000 + 1000 * Z.of_nat k)%Z;
     post_message := inr tt;
     post_run := inr (run queued);
     get_run := fun _ => inr (run in_progress);
     get_messages := inr {| data := [] |};
     post_completion := inr response;
     post_webhook := inr tt |}.

(** * Proofs *)

Arguments JS.trim : simpl never.
Arguments JS.truthy : simpl never.
Arguments JS.startsWith : simpl never.
Arguments JS.split : simpl never.
Arguments JS.join : simpl never.
Arguments JS.slice_last : simpl never.
Arguments JS.slice_to : simpl never.
Arguments extractText : simpl never.
Arguments getThreadMessages : simpl never.
Arguments shownMessage : simpl never.
Arguments derivedName : simpl never.

(** ** Rules for postconditions *)

Section Rules.
Context {A B : Type}.

Lemma post_ret (a : A) env w Q : Q (Ok a) w -> post (ret a) env w Q.
Proof. exact (fun H => H). Qed.

Lemma post_throw e env w (Q : Result A -> World -> Prop) :
  Q (Throw e) w -> post (throw e) env w Q.
Proof. exact (fun H => H). Qed.

Lemma post_bind (c : M A) (k : A -> M B) env w Q :
  post c env w
    (fun r w' => match r with
                 | Ok a => post (k a) env w' Q
                 | Throw e => Q (Throw e) w'
                 end) ->
  post (bind c k) env w Q.
Proof.
  unfold post, bind. destruct (c env w) as [[a|e] w']; exact (fun H => H).
Qed.

Lemma post_tryCatch (body : M A) handler env w Q :
  post body env w
    (fun r w' => match r with
                 | Ok a => Q (Ok a) w'
                 | Throw e => post (handler e) env w' Q
                 end) ->
  post (tryCatch body handler) env w Q.
Proof.
  unfold post, tryCatch.
  destruct (body env w) as [[a|e] w']; exact (fun H => H).
Qed.

Lemma post_tryFinally (body : M A) fin env w Q :
  post body env w (fun r w' => post fin env w' (fun _ w'' => Q r w'')) ->
  post (tryFinally body fin) env w Q.
Proof.
  unfold post, tryFinally.
  destruct (body env w) as [r w']. cbn.
  destruct (fin env w') as [r' w'']. exact (fun H => H).
Qed.

Lemma post_await (answer : Env -> Exn + A) env w Q :
  (forall a, answer env = inr a -> Q (Ok a) w) ->
  (forall e, answer env = inl e -> Q (Throw e) w) ->
  post (await answer) env w Q.
Proof.
  unfold post, await. intros H1 H2. revert H1 H2.
  case (answer env); intros x H1 H2; cbn; auto.
Qed.

End Rules.

Lemma post_setStore f env w (Q : Result unit -> World -> Prop) :
  Q (Ok tt) {| store := f (store w); chat := chat w;
               clockReads := clockReads w; statusReads := statusReads w;
               trace := trace w |} ->
  post (setStore f) env w Q.
Proof. exact (fun H => H). Qed.

Lemma post_setChat f env w (Q : Result unit -> World -> Prop) :
  Q (Ok tt) {| store := store w; chat := f (chat w);
               clockReads := clockReads w; statusReads := statusReads w;
               trace := trace w |} ->
  post (setChat f) env w Q.
Proof. exact (fun H => H). Qed.

Lemma post_log e env w (Q : Result unit -> World -> Prop) :
  Q (Ok tt) {| store := store w; chat := chat w;
               clockReads := clockReads w; statusReads := statusReads w;
               trace := trace w ++ [e] |} ->
  post (log e) env w Q.
Proof. exact (fun H => H). Qed.

Lemma post_now env w (Q : Result Time -> World -> Prop) :
  Q (Ok (clock env (clockReads w)))
    {| store := store w; chat := chat w;
       clockReads := S (clockReads w); statusReads := statusReads w;
       trace := trace w |} ->
  post now env w Q.
Proof. exact (fun H => H). Qed.

Lemma post_getStore env w (Q : Result AppState -> World -> Prop) :
  Q (Ok (store w)) w -> post getStore env w Q.
Proof. exact (fun H => H). Qed.

Lemma keepPolling_lt st pc : keepPolling st pc = true -> pc < maxPolls.
Proof.
  unfold keepPolling. rewrite !andb_true_iff, Nat.ltb_lt. tauto.
Qed.

Lemma polled_0 tid rid w : polled 0 tid rid w = w.
Proof.
  destruct w; unfold polled; cbn. now rewrite Nat.add_0_r, app_nil_r.
Qed.

Lemma polled_S n tid rid w :
  polled (S n) tid rid w =
  polled n tid rid
    {| store := store w; chat := chat w; clockReads := clockReads w;
       statusReads := S (statusReads w);
       trace := (trace w ++ [Sleep 1000]) ++ [HttpGetRun tid rid] |}.
Proof.
  unfold polled, pollEvents; cbn.
  f_equal; [lia | now rewrite <- !app_assoc].
Qed.

(** With fuel for the polls that remain below the cap, the loop ends the
    way the relation says; in particular [maxPolls] is enough from
    [pollCount = 0]. *)
Lemma pollWhile_fuel fuel : forall config tid rid st pc env w,
  maxPolls - pc <= fuel ->
  exists n res,
    pollWhile fuel config tid rid st pc env w = (res, polled n tid rid w)
    /\ Polls env (statusReads w) st pc n res.
Proof.
  induction fuel as [|fuel IH]; intros config tid rid st pc env w Hf.
  - exists 0, (Ok (st, pc)). rewrite polled_0. cbn.
    destruct (keepPolling st pc) eqn:K.
    + apply keepPolling_lt in K. lia.
    + split; [reflexivity | now constructor].
  - cbn [pollWhile]. destruct (keepPolling st pc) eqn:K.
    + unfold bind at 1. cbn [log].
      unfold bind at 1, checkRunStatus, tryCatch, bind at 1, log,
        nextStatusRead.
      cbn.
      destruct (get_run env (statusReads w)) as [e|r] eqn:G.
      * exists 1, (Throw e). split; [|now constructor].
        unfold throw. f_equal. unfold polled, pollEvents. cbn.
        f_equal; [lia | now rewrite <- app_assoc].
      * match goal with
        | |- context [pollWhile fuel ?c ?t ?r' ?s ?p ?e ?w'] =>
            destruct (IH c t r' s p e w') as (n & res & E & P); [lia|]
        end.
        exists (S n), res. split.
        -- rewrite E. now rewrite polled_S.
        -- cbn in P. econstructor; eauto.
    + exists 0, (Ok (st, pc)). rewrite polled_0.
      split; [reflexivity | now constructor].
Qed.

Lemma post_pollWhile config tid rid st env w Q :
  (forall n res, Polls env (statusReads w) st 0 n res ->
                 Q res (polled n tid rid w)) ->
  post (pollWhile maxPolls config tid rid st 0) env w Q.
Proof.
  intros H. unfold post.
  destruct (pollWhile_fuel maxPolls config tid rid st 0 env w)
    as (n & res & E & P); [lia|].
  rewrite E. cbn. auto.
Qed.

Ltac head t := lazymatch t with ?f _ => head f | _ => t end.

Ltac simpl_state :=
  cbn beta iota zeta delta
    [fst snd store chat clockReads statusReads trace
     c_activeThread c_activeConfiguration c_threadMessages c_input
     c_fileAttachments
     configurations activeConfiguration threads activeThread messages
     isLoading darkMode input fileAttachments error runId
     msg_id msg_threadId content role timestamp attachments
     threadId name createdAt lastUpdated isActive
     with_threads with_messages with_isLoading replaceThread
     with_id with_lastUpdated with_name polled app].

(** The same, keeping the store updates folded. *)
Ltac simpl_folded :=
  cbn beta iota zeta delta
    [fst snd store chat clockReads statusReads trace
     c_activeThread c_activeConfiguration c_threadMessages c_input
     c_fileAttachments
     input fileAttachments error runId
     msg_id msg_threadId content role timestamp attachments
     polled app].

(** One step of the walk through a handler; [simp] tidies the goal after
    the step. *)
Ltac wp_step_with simp :=
  lazymatch goal with
  | |- post (bind _ _) _ _ _ => apply post_bind
  | |- post (ret _) _ _ _ => apply post_ret
  | |- post (throw _) _ _ _ => apply post_throw
  | |- post (tryCatch _ _) _ _ _ => apply post_tryCatch
  | |- post (tryFinally _ _) _ _ _ => apply post_tryFinally
  | |- post (await _) _ _ _ =>
      apply post_await; intros ? ?; try congruence
  | |- post (pollWhile maxPolls _ _ _ _ 0) _ _ _ =>
      apply post_pollWhile; simp; intros ? ? ?
  | |- post (if ?b then _ else _) _ _ _ =>
      destruct b eqn:?; try congruence
  | |- post (match ?x with _ => _ end) _ _ _ =>
      destruct x eqn:?; try congruence
  | |- post (setStore _) _ _ _ => apply post_setStore
  | |- post (setChat _) _ _ _ => apply post_setChat
  | |- post (log _) _ _ _ => apply post_log
  | |- post now _ _ _ => apply post_now
  | |- post getStore _ _ _ => apply post_getStore
  | |- post ?c _ _ _ => let h := head c in unfold h
  | |- match ?x with _ => _ end => destruct x eqn:?; try congruence
  end; simp.

Ltac wp_step := wp_step_with simpl_state.

Ltac wp := repeat wp_step.

Ltac wp_folded := repeat (wp_step_with simpl_folded).

(** Set up a statement about [turn] as a postcondition of the handler. *)
Ltac turn_post :=
  unfold turn;
  lazymatch goal with
  | |- context [handleSendMessage ?c ?env ?w] =>
      pattern (snd (handleSendMessage c env w));
      lazymatch goal with
      | |- ?P _ =>
          change (post (handleSendMessage c) env w (fun _ w' => P w'))
      end
  end;
  unfold render, begin; cbv beta.

(** ** Validation *)

Lemma trimStart_onlyWhiteSpace s :
  onlyWhiteSpace s = true -> JS.trimStart s = "".
Proof.
  induction s as [|c s IH]; cbn; [reflexivity|].
  intros H. apply andb_true_iff in H as [Hc Hs]. rewrite Hc. auto.
Qed.

Lemma trim_onlyWhiteSpace s : onlyWhiteSpace s = true -> JS.trim s = "".
Proof.
  intros H. unfold JS.trim. now rewrite (trimStart_onlyWhiteSpace s H).
Qed.

Lemma validated_true s u :
  validated s u = true ->
  JS.truthy (JS.trim (input u)) = true
  /\ (exists th, activeThread s = Some th)
  /\ (exists cfg, activeConfiguration s = Some cfg).
Proof.
  unfold validated. rewrite !andb_true_iff.
  destruct (activeThread s), (activeConfiguration s); intros [[H1 H2] H3];
    try discriminate; eauto.
Qed.

(** C9. When the input is empty or only white space, or there is no
    active thread, or there is no active configuration, the turn does
    nothing: the store and the component state are the ones it started
    from (no message appended, loading flag and error untouched) and the
    log is empty (no gateway request, no store action). *)
Theorem C9_missing_precondition_is_noop env s u :
  onlyWhiteSpace (input u) = true
  \/ activeThread s = None
  \/ activeConfiguration s = None ->
  store (turn env s u) = s
  /\ chat (turn env s u) = u
  /\ trace (turn env s u) = [].
Proof.
  intros H. unfold turn, handleSendMessage, render, begin. cbn.
  destruct (activeThread s) as [th|]; [|now cbn].
  destruct (activeConfiguration s) as [cfg|]; [|now cbn].
  destruct H as [H|[H|H]]; try discriminate.
  rewrite (trim_onlyWhiteSpace _ H). now cbn.
Qed.

Lemma C9_missing_precondition_is_noop_witness :
  let blank := typed (String " " (String "009" (String "010" ""))) in
  (store (turn (scripted [] [] "Hi") (emptyConversation directConfig) blank)
     = emptyConversation directConfig
   /\ chat (turn (scripted [] [] "Hi") (emptyConversation directConfig) blank)
      = blank
   /\ trace (turn (scripted [] [] "Hi") (emptyConversation directConfig) blank)
      = [])
  /\ (store (turn (scripted [] [] "Hi") (noThread directConfig) (typed "Hello"))
        = noThread directConfig
      /\ chat (turn (scripted [] [] "Hi") (noThread directConfig) (typed "Hello"))
         = typed "Hello"
      /\ trace (turn (scripted [] [] "Hi") (noThread directConfig) (typed "Hello"))
         = [])
  /\ (store (turn (scripted [] [] "Hi") noConfiguration (typed "Hello"))
        = noConfiguration
      /\ chat (turn (scripted [] [] "Hi") noConfiguration (typed "Hello"))
         = typed "Hello"
      /\ trace (turn (scripted [] [] "Hi") noConfiguration (typed "Hello"))
         = []).
Proof.
  cbv zeta. split; [|split].
  - apply C9_missing_precondition_is_noop. left. reflexivity.
  - apply C9_missing_precondition_is_noop. right. left. reflexivity.
  - apply C9_missing_precondition_is_noop. right. right. reflexivity.
Defined.

(** ** The log and the store's messages *)

Lemma appendedMessages_app tr1 tr2 :
  appendedMessages (tr1 ++ tr2) = appendedMessages tr1 ++ appendedMessages tr2.
Proof.
  induction tr1 as [|e tr1 IH]; [reflexivity|].
  destruct e; cbn; rewrite IH; reflexivity.
Qed.

Lemma appendedMessages_pollEvents n tid rid :
  appendedMessages (pollEvents n tid rid) = [].
Proof. induction n; [reflexivity | exact IHn]. Qed.

Ltac appended_norm :=
  cbn [appendedMessages app];
  rewrite ?appendedMessages_app, ?appendedMessages_pollEvents;
  cbn [appendedMessages app];
  rewrite <- ?app_assoc; cbn [app].

(** The store's message list only grows, by the messages the log
    records. *)
Lemma turn_messages env s u :
  messages (store (turn env s u))
  = messages s ++ appendedMessages (trace (turn env s u)).
Proof.
  turn_post. wp; appended_norm; now rewrite ?app_nil_r.
Qed.

Lemma attachmentFree_pollEvents n tid rid :
  Forall attachmentFree (pollEvents n tid rid).
Proof. induction n; cbn; repeat constructor. exact IHn. Qed.

Lemma attachmentFree_appended tr :
  Forall attachmentFree tr ->
  Forall (fun m => attachments m = []) (appendedMessages tr).
Proof.
  induction 1 as [|e tr He _ IH]; [constructor|].
  destruct e; cbn; auto.
Qed.

(** The [file_ids] of the posted message: [fileIds] is [[]] or
    [undefined], so the payload never gets the field. *)
Lemma no_file_ids (files : list File) :
  (if (0 <? length match (if (0 <? length files)%nat
                          then Some (@nil string) else None) with
                   | Some l => l
                   | None => []
                   end)%nat
   then Some match (if (0 <? length files)%nat
                    then Some (@nil string) else None) with
             | Some l => l
             | None => []
             end
   else None) = None.
Proof. destruct files; reflexivity. Qed.

Lemma turn_attachmentFree env s u :
  Forall attachmentFree (trace (turn env s u)).
Proof.
  turn_post. wp.
  all: repeat first
    [ apply Forall_nil
    | apply attachmentFree_pollEvents
    | apply Forall_cons; [cbn; try apply no_file_ids; auto|]
    | apply Forall_app; split ].
Qed.

(** C10. Every message a turn appends to the store has an empty
    attachment list, and the body of the message posted to the gateway
    never has a [file_ids] field, whatever files are selected in the
    component. *)
Theorem C10_no_attachment_is_stored_or_sent env s u :
  Forall attachmentFree (trace (turn env s u))
  /\ exists new,
       messages (store (turn env s u)) = messages s ++ new
       /\ Forall (fun m => attachments m = []) new.
Proof.
  split; [apply turn_attachmentFree|].
  exists (appendedMessages (trace (turn env s u))).
  split; [apply turn_messages|].
  apply attachmentFree_appended, turn_attachmentFree.
Qed.

(** For a turn that passes validation: name the thread and the
    configuration, and start the walk through the handler. *)
Ltac valid_turn_post Hv th cfg :=
  let Hin := fresh "Hinput" in
  let Hth := fresh "Hthread" in
  let Hcfg := fresh "Hconfig" in
  destruct (validated_true _ _ Hv) as (Hin & (th & Hth) & (cfg & Hcfg));
  turn_post; unfold handleSendMessage; simpl_state;
  rewrite ?Hth, ?Hcfg; simpl_state; rewrite ?Hin; cbn [negb].

(** ** The user's message *)

Lemma turn_first_event env s u th :
  validated s u = true -> activeThread s = Some th ->
  exists rest,
    trace (turn env s u) = StoreAddMessage (userMessage env th u) :: rest.
Proof.
  intros Hv Ha. valid_turn_post Hv th' cfg.
  assert (th' = th) by congruence. subst th'.
  wp; eexists; reflexivity.
Qed.

(** C7. In a turn that passes validation the user's message is the first
    thing that happens (it is logged before any gateway request), and
    whatever the gateway answers afterwards (so on every failure path)
    the store ends with its earlier messages, unchanged, followed by the
    user's message. *)
Theorem C7_user_message_stays_recorded env s u th :
  validated s u = true -> activeThread s = Some th ->
  (exists rest,
     trace (turn env s u) = StoreAddMessage (userMessage env th u) :: rest)
  /\ (exists later,
        messages (store (turn env s u))
        = messages s ++ userMessage env th u :: later).
Proof.
  intros Hv Ha.
  destruct (turn_first_event env s u th Hv Ha) as [rest Hrest].
  split; [eauto|].
  exists (appendedMessages rest).
  rewrite turn_messages, Hrest. reflexivity.
Qed.

Lemma C7_user_message_stays_recorded_witness :
  let env := scripted [in_progress; failed] [] "" in
  let s := emptyConversation assistedConfig in
  (exists rest,
     trace (turn env s (typed "Hello"))
     = StoreAddMessage (userMessage env thread1 (typed "Hello")) :: rest)
  /\ (exists later,
        messages (store (turn env s (typed "Hello")))
        = messages s ++ userMessage env thread1 (typed "Hello") :: later).
Proof.
  apply C7_user_message_stays_recorded; reflexivity.
Defined.
(** ** Assistant messages *)

Lemma turn_at_most_one_reply env s u :
  length (assistantAppends (trace (turn env s u))) <= 1.
Proof.
  unfold assistantAppends. turn_post.
  wp; appended_norm; cbn; lia.
Qed.

Lemma turn_reply_iff_success env s u :
  validated s u = true ->
  (error (chat (turn env s u)) = None ->
   length (assistantAppends (trace (turn env s u))) = 1)
  /\ (error (chat (turn env s u)) <> None ->
      assistantAppends (trace (turn env s u)) = []).
Proof.
  intros Hv. unfold assistantAppends. valid_turn_post Hv th cfg.
  wp; appended_norm; cbn; split; intros; congruence.
Qed.

(** C8. A turn appends at most one assistant message to the store; a
    turn that passes validation and ends without an error appends exactly
    one, and one that ends with an error (a failed, cancelled or timed
    out run, a missing reply, an empty completion, a gateway error)
    appends none.  The assistant messages of the store after the turn
    are the earlier ones followed by the appended ones. *)
Theorem C8_one_reply_per_successful_turn env s u :
  length (assistantAppends (trace (turn env s u))) <= 1
  /\ filter isAssistantMessage (messages (store (turn env s u)))
     = filter isAssistantMessage (messages s)
         ++ assistantAppends (trace (turn env s u))
  /\ (validated s u = true ->
      (error (chat (turn env s u)) = None ->
       length (assistantAppends (trace (turn env s u))) = 1)
      /\ (error (chat (turn env s u)) <> None ->
          assistantAppends (trace (turn env s u)) = [])).
Proof.
  split; [apply turn_at_most_one_reply|].
  split; [|apply turn_reply_iff_success].
  rewrite turn_messages. apply filter_app.
Qed.

Lemma C8_one_reply_per_successful_turn_witness :
  let ok := scripted [] [] "Hi there" in
  let timeout := scripted [] [] "" in
  let sd := emptyConversation directConfig in
  let sa := emptyConversation assistedConfig in
  (error (chat (turn ok sd (typed "Hello"))) = None
   /\ length (assistantAppends (trace (turn ok sd (typed "Hello")))) = 1)
  /\ (error (chat (turn timeout sa (typed "Hello"))) <> None
      /\ assistantAppends (trace (turn timeout sa (typed "Hello"))) = []).
Proof.
  cbv zeta. split.
  - assert (H : error (chat (turn (scripted [] [] "Hi there")
                               (emptyConversation directConfig)
                               (typed "Hello"))) = None)
      by (vm_compute; reflexivity).
    split; [exact H|].
    apply (C8_one_reply_per_successful_turn
             (scripted [] [] "Hi there") (emptyConversation directConfig)
             (typed "Hello")); [reflexivity | exact H].
  - assert (H : error (chat (turn (scripted [] [] "")
                               (emptyConversation assistedConfig)
                               (typed "Hello"))) <> None)
      by (vm_compute; discriminate).
    split; [exact H|].
    apply (C8_one_reply_per_successful_turn
             (scripted [] [] "") (emptyConversation assistedConfig)
             (typed "Hello")); [reflexivity | exact H].
Defined.

(** ** The direct path *)

Lemma slice_last_suffix {A} n (xs : list A) :
  exists older, xs = older ++ JS.slice_last n xs.
Proof.
  exists (firstn (length xs - n) xs). unfold JS.slice_last.
  symmetry. apply firstn_skipn.
Qed.

Lemma slice_last_length {A} n (xs : list A) :
  length (JS.slice_last n xs) = Nat.min n (length xs).
Proof. unfold JS.slice_last. rewrite length_skipn. lia. Qed.

Lemma turn_direct_history env s u th :
  validated s u = true -> assisted s = false -> activeThread s = Some th ->
  completionHistories (trace (turn env s u))
  = [JS.slice_last 10 (map toChatMessage (getThreadMessages (threadId th) s))
       ++ [{| cm_role := user; cm_content := input u |}]].
Proof.
  intros Hv Hd Ha. unfold assisted in Hd.
  valid_turn_post Hv th' cfg.
  assert (th' = th) by congruence. subst th'.
  rewrite Hconfig in Hd.
  wp; reflexivity.
Qed.

Lemma priorTurns_spec tid s :
  map toChatMessage (getThreadMessages tid s)
  = spec_priorTurns tid (messages s).
Proof.
  unfold getThreadMessages.
  induction (messages s) as [|m ms IH]; [reflexivity|].
  cbn [filter spec_priorTurns].
  destruct (String.eqb (msg_threadId m) tid); [|exact IH].
  cbn [map]. now rewrite IH.
Qed.

Lemma slice_last_spec {A} n (xs : list A) :
  JS.slice_last n xs = spec_mostRecent n xs.
Proof.
  unfold JS.slice_last, spec_mostRecent.
  now rewrite firstn_rev, rev_involutive.
Qed.

(** C3. In a direct-mode turn exactly one completion request is issued,
    and its history is the most recent ten prior turns of the
    conversation followed by the new user turn.  The prior turns are the
    stored messages of the active thread, oldest first, each reduced to
    role and text ([spec_priorTurns]); the most recent ten of them are
    counted from the newest end and stay oldest first
    ([spec_mostRecent]): they are a suffix of the prior turns, all of
    them when there are fewer than ten.  On the empty thread with input
    "Hello" the history is the single user entry "Hello", and with
    twelve prior turns it is turns 3 to 12 and the new one (the witness
    below). *)
Theorem C3_direct_history_window env s u th :
  validated s u = true -> assisted s = false -> activeThread s = Some th ->
  let prior := spec_priorTurns (threadId th) (messages s) in
  let window := spec_mostRecent 10 prior in
  completionHistories (trace (turn env s u))
  = [window ++ [{| cm_role := user; cm_content := input u |}]]
  /\ (exists older, prior = older ++ window)
  /\ length window = Nat.min 10 (length prior).
Proof.
  intros Hv Hd Ha prior window. subst prior window.
  rewrite <- priorTurns_spec, <- slice_last_spec. split; [|split].
  - now apply turn_direct_history.
  - apply slice_last_suffix.
  - apply slice_last_length.
Qed.

Lemma C3_direct_history_window_witness :
  completionHistories
    (trace (turn (scripted [] [] "Sure") (longConversation directConfig)
              (typed "Next")))
  = [[{| cm_role := user; cm_content := "3" |};
      {| cm_role := assistant; cm_content := "4" |};
      {| cm_role := user; cm_content := "5" |};
      {| cm_role := assistant; cm_content := "6" |};
      {| cm_role := user; cm_content := "7" |};
      {| cm_role := assistant; cm_content := "8" |};
      {| cm_role := user; cm_content := "9" |};
      {| cm_role := assistant; cm_content := "10" |};
      {| cm_role := user; cm_content := "11" |};
      {| cm_role := assistant; cm_content := "12" |};
      {| cm_role := user; cm_content := "Next" |}]]
  /\ completionHistories
       (trace (turn (scripted [] [] "Hi there")
                 (emptyConversation directConfig) (typed "Hello")))
     = [[{| cm_role := user; cm_content := "Hello" |}]].
Proof.
  split.
  - exact (proj1 (C3_direct_history_window
                    (scripted [] [] "Sure")
                    (longConversation directConfig) (typed "Next") thread1
                    eq_refl eq_refl eq_refl)).
  - exact (proj1 (C3_direct_history_window
                    (scripted [] [] "Hi there")
                    (emptyConversation directConfig) (typed "Hello") thread1
                    eq_refl eq_refl eq_refl)).
Defined.

(** ** The polling loop *)

Lemma keepPolling_pending st pc :
  keepPolling st pc = true -> terminal st = false.
Proof. destruct st; cbn; auto; discriminate. Qed.

Lemma keepPolling_false st pc :
  keepPolling st pc = false -> terminal st = true \/ maxPolls <= pc.
Proof.
  unfold keepPolling. intros H.
  destruct st; cbn in *; auto; right; now apply Nat.ltb_ge.
Qed.

(** What a run of the loop from [pollCount = k], with the [k]-th read
    next, means in terms of the statuses the environment holds. *)
Lemma Polls_spec env r0 k st pc n res :
  Polls env k st pc n res ->
  pc = k -> statusAfter env r0 k = Some st -> k <= maxPolls ->
  k + n <= maxPolls
  /\ (forall j, k <= j < k + n -> pendingAt env r0 j = true)
  /\ match res with
     | Ok (st', pc') =>
         pc' = k + n /\ statusAfter env r0 (k + n) = Some st'
         /\ keepPolling st' (k + n) = false
     | Throw e => 0 < n /\ statusAfter env r0 (k + n) = None
     end.
Proof.
  induction 1 as [k st pc K | k st pc e K G | k st pc r n res K G _ IH];
    intros -> Hst Hk.
  - rewrite Nat.add_0_r. repeat split; auto; intros; lia.
  - pose proof (keepPolling_lt _ _ K).
    split; [lia|]. split.
    + intros j Hj. assert (j = k) by lia. subst j.
      unfold pendingAt. rewrite Hst.
      now rewrite (keepPolling_pending _ _ K).
    + split; [lia|]. replace (k + 1) with (S k) by lia. cbn. now rewrite G.
  - pose proof (keepPolling_lt _ _ K).
    destruct IH as (Hn & Hp & Hr); [reflexivity | cbn; now rewrite G | lia |].
    replace (k + S n) with (S k + n) by lia.
    split; [lia|]. split.
    + intros j Hj. destruct (Nat.eq_dec j k) as [->|Hne].
      * unfold pendingAt. rewrite Hst.
        now rewrite (keepPolling_pending _ _ K).
      * apply Hp. lia.
    + destruct res as [[st' pc']|e]; [exact Hr|].
      split; [lia | apply Hr].
Qed.

Lemma pollEvents_S n tid rid :
  pollEvents (S n) tid rid
  = Sleep 1000 :: HttpGetRun tid rid :: pollEvents n tid rid.
Proof. reflexivity. Qed.

Lemma filter_reads_pollEvents n tid rid :
  filter isStatusRead (pollEvents n tid rid) = repeat (HttpGetRun tid rid) n.
Proof.
  induction n; [reflexivity|].
  rewrite pollEvents_S. cbn. now rewrite IHn.
Qed.

Lemma filter_pollAndList_pollEvents n tid rid :
  filter (fun e => isStatusRead e || isListMessages e) (pollEvents n tid rid)
  = repeat (HttpGetRun tid rid) n.
Proof.
  induction n; [reflexivity|].
  rewrite pollEvents_S. cbn. now rewrite IHn.
Qed.

Ltac reads_norm :=
  unfold statusReadsIn, pollAndList;
  repeat (progress (cbn [filter isStatusRead isListMessages orb app];
                    rewrite ?filter_app));
  rewrite ?filter_reads_pollEvents, ?filter_pollAndList_pollEvents;
  rewrite ?length_app, ?repeat_length; cbn [length];
  rewrite ?app_nil_r, ?Nat.add_0_r.

(** The facts [Polls_spec] gives for the loop of a turn. *)
Ltac polls_facts F :=
  match goal with
  | H : Polls ?env 0 (status ?r0) 0 ?n ?res |- _ =>
      pose proof (Polls_spec env r0 0 (status r0) 0 n res H
                    eq_refl eq_refl (Nat.le_0_l _)) as F;
      cbn [Nat.add] in F
  end.

(** Identify the answers the walk names with the ones the hypotheses
    name. *)
Ltac same_answers :=
  repeat match goal with
         | H1 : ?f ?e = inr ?a, H2 : ?f ?e = inr ?b |- _ =>
             is_var a; is_var b;
             assert (a = b) by congruence; subst a; clear H1
         end.

Lemma turn_reads_bounded env s u :
  statusReadsIn (trace (turn env s u)) <= maxPolls.
Proof.
  turn_post. wp; reads_norm; try (unfold maxPolls; lia).
  all: polls_facts F; lia.
Qed.

Lemma turn_assisted_outcome env s u th r0 :
  validated s u = true -> assisted s = true -> activeThread s = Some th ->
  post_message env = inr tt -> post_run env = inr r0 ->
  exists n res,
    Polls env 0 (status r0) 0 n res
    /\ statusReadsIn (trace (turn env s u)) = n
    /\ match res with
       | Throw e =>
           error (chat (turn env s u)) = Some (shownMessage e)
           /\ pollAndList (trace (turn env s u))
              = repeat (HttpGetRun (threadId th) (run_id r0)) n
       | Ok (completed, _) =>
           pollAndList (trace (turn env s u))
           = repeat (HttpGetRun (threadId th) (run_id r0)) n
               ++ [HttpGetMessages (threadId th)]
           /\ match get_messages env with
              | inl e =>
                  error (chat (turn env s u)) = Some (shownMessage e)
              | inr response =>
                  match find isAssistantEntry (data response) with
                  | Some m =>
                      error (chat (turn env s u)) = None
                      /\ map content (assistantAppends (trace (turn env s u)))
                         = [extractText (omr_content m)]
                  | None =>
                      error (chat (turn env s u))
                      = Some "No assistant response found in the thread"
                  end
              end
       | Ok (failed, _) =>
           error (chat (turn env s u))
           = Some "Assistant run failed. Please try again."
       | Ok (cancelled, _) =>
           error (chat (turn env s u))
           = Some "Assistant run was cancelled."
       | Ok (_, _) =>
           error (chat (turn env s u))
           = Some "Assistant run timed out. Please try again."
       end.
Proof.
  intros Hv Hd Ha Hm Hr. unfold assisted in Hd.
  valid_turn_post Hv th' cfg.
  assert (th' = th) by congruence. subst th'.
  rewrite Hconfig in Hd.
  wp.
  all: same_answers.
  all: match goal with
       | H : Polls _ _ _ _ ?n ?res |- _ =>
           exists n, res; split; [exact H|]
       end.
  all: try match goal with
       | H : fst ?a = _ |- _ => destruct a; cbn [fst] in H; subst
       end.
  all: unfold isAssistantEntry, assistantAppends.
  all: repeat match goal with
              | H : ?x = _ |- context [match ?x with _ => _ end] =>
                  rewrite H
              end.
  all: reads_norm; appended_norm; cbn [error]; auto.
Qed.

Lemma keepPolling_terminal st pc :
  keepPolling st pc = negb (terminal st) && (pc <? maxPolls)%nat.
Proof. destruct st; reflexivity. Qed.

Lemma allPending_spec env r0 k :
  allPending env r0 k = true <-> forall j, j < k -> pendingAt env r0 j = true.
Proof.
  unfold allPending. rewrite forallb_forall. split.
  - intros H j Hj. apply H, in_seq. lia.
  - intros H j Hj. apply in_seq in Hj. apply H. lia.
Qed.

(** While the run is pending and the cap is not reached, the loop reads
    again. *)
Lemma Polls_reads_ge env r0 n res k :
  Polls env 0 (status r0) 0 n res ->
  k <= maxPolls -> allPending env r0 k = true -> k <= n.
Proof.
  intros HP Hk Hall.
  destruct (Polls_spec env r0 0 _ 0 n res HP eq_refl eq_refl (Nat.le_0_l _))
    as (Hn & Hpend & Hres). cbn [Nat.add] in *.
  destruct (Nat.le_gt_cases k n) as [|Hlt]; [assumption|exfalso].
  pose proof (proj1 (allPending_spec env r0 k) Hall n Hlt) as Hp.
  unfold pendingAt in Hp.
  destruct res as [[st' pc']|e].
  - destruct Hres as (_ & Hst & Hkeep). rewrite Hst in Hp.
    destruct (keepPolling_false _ _ Hkeep) as [Ht|Hc]; [|lia].
    rewrite Ht in Hp. discriminate.
  - destruct Hres as (_ & Hst). rewrite Hst in Hp. discriminate.
Qed.

(** The loop stops at the first read after which the run is not
    pending. *)
Lemma Polls_reads_le env r0 n res k :
  Polls env 0 (status r0) 0 n res ->
  pendingAt env r0 k = false -> n <= k.
Proof.
  intros HP Hk.
  destruct (Polls_spec env r0 0 _ 0 n res HP eq_refl eq_refl (Nat.le_0_l _))
    as (_ & Hpend & _). cbn [Nat.add] in *.
  destruct (Nat.le_gt_cases n k) as [|Hlt]; [assumption|exfalso].
  rewrite Hpend in Hk by lia. discriminate.
Qed.

Lemma Polls_result env r0 n res :
  Polls env 0 (status r0) 0 n res ->
  n <= maxPolls
  /\ match res with
     | Ok (st', _) => statusAfter env r0 n = Some st'
     | Throw _ => statusAfter env r0 n = None
     end.
Proof.
  intros HP.
  destruct (Polls_spec env r0 0 _ 0 n res HP eq_refl eq_refl (Nat.le_0_l _))
    as (Hn & _ & Hres). cbn [Nat.add] in *.
  split; [assumption|].
  destruct res as [[st' pc']|e]; tauto.
Qed.

(** C5. In an assisted turn whose run is started with a status that is
    not terminal and whose status reads answer queued, in_progress,
    in_progress, completed, the orchestrator issues exactly four status
    reads and then exactly one read of the message list. *)
Theorem C5_four_polls_then_one_list env s u th r0 :
  validated s u = true -> assisted s = true -> activeThread s = Some th ->
  post_message env = inr tt -> post_run env = inr r0 ->
  terminal (status r0) = false ->
  map (statusAfter env r0) [1; 2; 3; 4]
  = [Some queued; Some in_progress; Some in_progress; Some completed] ->
  statusReadsIn (trace (turn env s u)) = 4
  /\ pollAndList (trace (turn env s u))
     = repeat (HttpGetRun (threadId th) (run_id r0)) 4
         ++ [HttpGetMessages (threadId th)].
Proof.
  intros Hv Hd Ha Hm Hr H0 Hs.
  injection Hs as H1 H2 H3 H4.
  destruct (turn_assisted_outcome env s u th r0 Hv Hd Ha Hm Hr)
    as (n & res & HP & Hn & Hres).
  assert (Hall : allPending env r0 4 = true).
  { unfold allPending, pendingAt. cbn [seq forallb].
    cbn [statusAfter] in *. rewrite H1, H2, H3, H0. reflexivity. }
  assert (Hstop : pendingAt env r0 4 = false).
  { unfold pendingAt. cbn [statusAfter] in *. now rewrite H4. }
  assert (Hn4 : n = 4).
  { apply Nat.le_antisymm.
    - exact (Polls_reads_le env r0 n res 4 HP Hstop).
    - apply (Polls_reads_ge env r0 n res 4 HP); [unfold maxPolls; lia|].
      exact Hall. }
  rewrite Hn4 in *. split; [assumption|].
  destruct (Polls_result env r0 4 res HP) as (_ & Hst).
  cbn [statusAfter] in *.
  destruct res as [[st' pc']|e]; rewrite H4 in Hst; [|discriminate].
  injection Hst as <-. exact (proj1 Hres).
Qed.

Lemma C5_four_polls_then_one_list_witness :
  let w := turn completesAfterFour (emptyConversation assistedConfig)
             (typed "Hello") in
  statusReadsIn (trace w) = 4
  /\ pollAndList (trace w)
     = [HttpGetRun "thread_1" "run_1"; HttpGetRun "thread_1" "run_1";
        HttpGetRun "thread_1" "run_1"; HttpGetRun "thread_1" "run_1";
        HttpGetMessages "thread_1"].
Proof.
  cbv zeta.
  exact (C5_four_polls_then_one_list completesAfterFour
           (emptyConversation assistedConfig) (typed "Hello") thread1
           (run queued)
           eq_refl eq_refl eq_refl eq_refl eq_refl eq_refl eq_refl).
Defined.

(** C1. A turn issues at most 60 status reads.  In an assisted turn whose
    message post and run start succeed: if the run is pending after each
    of the first [k] reads and the status after read [k] (the start
    status for [k = 0]) is completed, failed or cancelled, exactly [k]
    reads are issued; if the run is still pending after read [k < 60]
    (whatever non-terminal status it shows, requires_action and expired
    included), a further read is issued; and if it is pending after
    every read up to the 60th, exactly 60 reads are issued and the turn
    ends with the timed-out error, which is not the run-failed error. *)
Theorem C1_polling_is_capped env s u :
  statusReadsIn (trace (turn env s u)) <= 60
  /\ (forall st pc,
        keepPolling st pc = negb (terminal st) && (pc <? 60)%nat)
  /\ (forall r0,
        validated s u = true -> assisted s = true ->
        post_message env = inr tt -> post_run env = inr r0 ->
        (forall k st,
           k <= 60 -> allPending env r0 k = true ->
           statusAfter env r0 k = Some st -> terminal st = true ->
           statusReadsIn (trace (turn env s u)) = k)
        /\ (forall k,
              k < 60 -> allPending env r0 (S k) = true ->
              k < statusReadsIn (trace (turn env s u)))
        /\ (allPending env r0 61 = true ->
            statusReadsIn (trace (turn env s u)) = 60
            /\ error (chat (turn env s u))
               = Some "Assistant run timed out. Please try again."
            /\ error (chat (turn env s u))
               <> Some "Assistant run failed. Please try again.")).
Proof.
  split; [apply turn_reads_bounded|].
  split; [apply keepPolling_terminal|].
  intros r0 Hv Hd Hm Hr.
  destruct (validated_true _ _ Hv) as (_ & (th & Ha) & _).
  destruct (turn_assisted_outcome env s u th r0 Hv Hd Ha Hm Hr)
    as (n & res & HP & Hn & Hres).
  rewrite Hn. split; [|split].
  - intros k st Hk Hall Hst Ht.
    apply Nat.le_antisymm.
    + apply (Polls_reads_le env r0 n res k HP).
      unfold pendingAt. now rewrite Hst, Ht.
    + now apply (Polls_reads_ge env r0 n res k HP).
  - intros k Hk Hall.
    apply (Polls_reads_ge env r0 n res (S k) HP); [unfold maxPolls; lia|].
    exact Hall.
  - intros Hall.
    pose proof (proj1 (allPending_spec env r0 61) Hall) as Hp.
    assert (H60 : n = 60).
    { apply Nat.le_antisymm.
      - apply (Polls_result env r0 n res HP).
      - apply (Polls_reads_ge env r0 n res 60 HP); [unfold maxPolls; lia|].
        apply allPending_spec. intros j Hj. apply Hp. lia. }
    assert (Hend : error (chat (turn env s u))
                   = Some "Assistant run timed out. Please try again.").
    { destruct (Polls_result env r0 n res HP) as (_ & Hst).
      specialize (Hp 60 ltac:(lia)). unfold pendingAt in Hp.
      rewrite H60 in Hst.
      destruct res as [[st' pc']|e]; rewrite Hst in Hp; [|discriminate].
      destruct st'; try discriminate; exact Hres. }
    split; [assumption|]. split; [assumption|].
    rewrite Hend. discriminate.
Qed.

Lemma C1_polling_is_capped_witness :
  let s := emptyConversation assistedConfig in
  let done := turn completesAfterFour s (typed "Hello") in
  let stuck := turn neverCompletes s (typed "Hello") in
  statusReadsIn (trace done) = 4
  /\ 2 < statusReadsIn (trace done)
  /\ statusReadsIn (trace stuck) = 60
  /\ error (chat stuck) = Some "Assistant run timed out. Please try again."
  /\ error (chat stuck) <> Some "Assistant run failed. Please try again.".
Proof.
  cbv zeta.
  pose proof (proj2 (proj2 (C1_polling_is_capped completesAfterFour
                              (emptyConversation assistedConfig)
                              (typed "Hello")))
                (run queued) eq_refl eq_refl eq_refl eq_refl) as Hdone.
  pose proof (proj2 (proj2 (C1_polling_is_capped neverCompletes
                              (emptyConversation assistedConfig)
                              (typed "Hello")))
                (run queued) eq_refl eq_refl eq_refl eq_refl) as Hstuck.
  split; [|split].
  - apply (proj1 Hdone 4 completed); [lia | reflexivity ..].
  - apply (proj1 (proj2 Hdone) 2); [lia | reflexivity].
  - apply (proj2 (proj2 Hstuck)). vm_compute. reflexivity.
Defined.

(** ** The webhook *)

Section Blind.
Context {A B : Type}.

Lemma blind_bind (c : M A) (k : A -> M B) :
  webhookBlind c -> (forall a, webhookBlind (k a)) ->
  webhookBlind (bind c k).
Proof.
  intros Hc Hk e1 e2 w H. unfold bind. rewrite (Hc e1 e2 w H).
  destruct (c e2 w) as [[a|e] w']; [now apply Hk | reflexivity].
Qed.

Lemma blind_tryCatch (body : M A) handler :
  webhookBlind body -> (forall e, webhookBlind (handler e)) ->
  webhookBlind (tryCatch body handler).
Proof.
  intros Hb Hh e1 e2 w H. unfold tryCatch. rewrite (Hb e1 e2 w H).
  destruct (body e2 w) as [[a|e] w']; [reflexivity | now apply Hh].
Qed.

Lemma blind_tryFinally (body : M A) fin :
  webhookBlind body -> webhookBlind fin ->
  webhookBlind (tryFinally body fin).
Proof.
  intros Hb Hf e1 e2 w H. unfold tryFinally. rewrite (Hb e1 e2 w H).
  destruct (body e2 w) as [r w']. now rewrite (Hf e1 e2 w' H).
Qed.

End Blind.

(** A step that reads the environment only through the fields the two
    environments share. *)
Ltac blind_leaf :=
  let Hc := fresh in let Hm := fresh in let Hr := fresh in
  let Hg := fresh in let Hl := fresh in let Hp := fresh in
  intros ? ? ? (Hc & Hm & Hr & Hg & Hl & Hp);
  unfold ret, throw, setStore, setChat, log, getStore, now, await,
    nextStatusRead;
  cbv zeta; rewrite ?Hc, ?Hm, ?Hr, ?Hg, ?Hl, ?Hp; reflexivity.

Lemma blind_sendWebhook_dropped url body :
  webhookBlind (bind (sendWebhook url body) (fun _ => ret tt)).
Proof.
  intros e1 e2 w _. unfold bind, sendWebhook, tryCatch, bind, log, await, ret.
  destruct (post_webhook e1), (post_webhook e2); reflexivity.
Qed.

Ltac blind_step :=
  lazymatch goal with
  | |- webhookBlind (bind (sendWebhook _ _) _) => apply blind_sendWebhook_dropped
  | |- webhookBlind (bind _ _) => apply blind_bind; [|intros ?]
  | |- webhookBlind (tryCatch _ _) => apply blind_tryCatch; [|intros ?]
  | |- webhookBlind (tryFinally _ _) => apply blind_tryFinally
  | |- webhookBlind (if ?b then _ else _) => destruct b
  | |- webhookBlind (match ?x with _ => _ end) => destruct x
  | |- webhookBlind (ret _) => blind_leaf
  | |- webhookBlind (throw _) => blind_leaf
  | |- webhookBlind (setStore _) => blind_leaf
  | |- webhookBlind (setChat _) => blind_leaf
  | |- webhookBlind (log _) => blind_leaf
  | |- webhookBlind getStore => blind_leaf
  | |- webhookBlind now => blind_leaf
  | |- webhookBlind (await _) => blind_leaf
  | |- webhookBlind nextStatusRead => blind_leaf
  | |- webhookBlind (pollWhile _ _ _ _ _ _) => fail
  | |- webhookBlind ?c => let h := head c in unfold h
  end; cbv beta zeta.

Lemma blind_pollWhile fuel : forall config tid rid st pc,
  webhookBlind (pollWhile fuel config tid rid st pc).
Proof.
  induction fuel as [|fuel IH]; intros config tid rid st pc;
    cbn [pollWhile]; destruct (keepPolling st pc); try blind_leaf.
  apply blind_bind; [blind_leaf | intros _].
  apply blind_bind; [repeat blind_step | intros r; apply IH].
Qed.

Lemma blind_handleSendMessage c : webhookBlind (handleSendMessage c).
Proof.
  repeat first [apply blind_pollWhile | blind_step].
Qed.

Lemma sameButWebhook_withWebhook env o1 o2 :
  sameButWebhook (withWebhook env o1) (withWebhook env o2).
Proof. repeat split. Qed.

(** C6. [sendWebhook] never throws: it returns [true] when the delivery
    succeeds and [false] when it fails, whatever the failure.  And the
    turn is the same whatever the outcome of the delivery: the final
    store, the component state (the error shown, so whether the turn
    ended completed or failed) and the log do not depend on it. *)
Theorem C6_webhook_never_affects_the_turn :
  (forall url body env w,
     fst (sendWebhook url body env w)
     = Ok (match post_webhook env with inr _ => true | inl _ => false end))
  /\ (forall env s u o1 o2,
        turn (withWebhook env o1) s u = turn (withWebhook env o2) s u).
Proof.
  split.
  - intros url body env w.
    unfold sendWebhook, tryCatch, bind, log, await, ret.
    destruct (post_webhook env); reflexivity.
  - intros env s u o1 o2. unfold turn. f_equal.
    apply blind_handleSendMessage, sameButWebhook_withWebhook.
Qed.

(** ** The reply of the assisted path *)

Lemma find_newest entries m :
  newestFirst entries ->
  find isAssistantEntry entries = Some m ->
  forall m', In m' entries -> isAssistantEntry m' = true ->
             (created_at m' <= created_at m)%Z.
Proof.
  unfold newestFirst.
  induction 1 as [|x rest Hrest IH Hx]; cbn [find]; [discriminate|].
  destruct (isAssistantEntry x) eqn:Hax.
  - intros [= <-] m' [<-|Hin] _; [lia|].
    rewrite Forall_forall in Hx. now apply Hx.
  - intros Hf m' [<-|Hin] Hm'; [congruence|]. now apply IH.
Qed.

(** What the code does on a completed run: it takes the first
    assistant-authored entry in the order of the fetched list ([find])
    and [extractText] of its parts.  Only when the list is newest first
    is that entry a most recently added one.  When the list has no
    assistant entry, the turn fails with the no-reply-found error, which
    is not the run-failed error, and no assistant message is stored. *)
Lemma completed_run_reply env s u th r0 k entries :
  validated s u = true -> assisted s = true -> activeThread s = Some th ->
  post_message env = inr tt -> post_run env = inr r0 ->
  k <= 60 -> allPending env r0 k = true ->
  statusAfter env r0 k = Some completed ->
  get_messages env = inr {| data := entries |} ->
  match find isAssistantEntry entries with
  | Some m =>
      error (chat (turn env s u)) = None
      /\ map content (assistantAppends (trace (turn env s u)))
         = [extractText (omr_content m)]
      /\ (newestFirst entries ->
          forall m', In m' entries -> isAssistantEntry m' = true ->
                     (created_at m' <= created_at m)%Z)
  | None =>
      error (chat (turn env s u))
      = Some "No assistant response found in the thread"
      /\ error (chat (turn env s u))
         <> Some "Assistant run failed. Please try again."
      /\ assistantAppends (trace (turn env s u)) = []
  end.
Proof.
  intros Hv Hd Ha Hm Hr Hk Hall Hst Hl.
  destruct (turn_assisted_outcome env s u th r0 Hv Hd Ha Hm Hr)
    as (n & res & HP & Hn & Hres).
  assert (Hnk : n = k).
  { apply Nat.le_antisymm.
    - apply (Polls_reads_le env r0 n res k HP).
      unfold pendingAt. now rewrite Hst.
    - now apply (Polls_reads_ge env r0 n res k HP). }
  destruct (Polls_result env r0 n res HP) as (_ & Hend).
  rewrite Hnk in Hend.
  destruct res as [[st' pc']|e]; rewrite Hst in Hend; [|discriminate].
  injection Hend as <-. destruct Hres as (_ & Hres).
  rewrite Hl in Hres. cbn [data] in Hres.
  destruct (find isAssistantEntry entries) as [m|] eqn:Hf.
  - destruct Hres as (He & Hc). repeat split; auto.
    intros Hsorted. now apply find_newest.
  - split; [assumption|]. split; [rewrite Hres; discriminate|].
    apply (turn_reply_iff_success env s u Hv). rewrite Hres. discriminate.
Qed.

(** C2. The claim fails on the code for a list in oldest-first order.
    The fetched list holds an assistant entry created at 10 (text parts
    "First" and "answer" around an image part), a user entry created at
    20 and an assistant entry created at 30 ("Second answer").  The most
    recently added assistant entry is the third, in whatever order the
    list comes, so the reply the claim asks for is "Second answer"; the
    code stores it when the list is newest first, but with the list
    oldest first the turn succeeds and the reply stored is the text of
    the oldest assistant entry, "First" and "answer" separated by a
    line feed. *)
Theorem C2_oldest_first_list_stores_oldest_reply :
  let s := emptyConversation assistedConfig in
  let oldest := turn (scripted [completed] oldestFirstEntries "") s
                  (typed "Hello again") in
  let newest := turn (scripted [completed] newestFirstEntries "") s
                  (typed "Hello again") in
  map created_at (filter isAssistantEntry oldestFirstEntries) = [10; 30]%Z
  /\ spec_replyBody oldestFirstEntries = Some "Second answer"
  /\ spec_replyBody newestFirstEntries = Some "Second answer"
  /\ map content (assistantAppends (trace newest)) = ["Second answer"]
  /\ error (chat oldest) = None
  /\ map content (assistantAppends (trace oldest))
     = [("First" ++ String "010" "answer")%string].
Proof. cbv zeta. repeat split; vm_compute; reflexivity. Qed.

(** Without an assistant entry in the list the turn fails with the
    no-reply-found error and stores no reply. *)
Example no_assistant_entry_is_an_error :
  let w := turn (scripted [completed] userOnlyEntries "")
             (emptyConversation assistedConfig) (typed "Hello again") in
  error (chat w) = Some "No assistant response found in the thread"
  /\ assistantAppends (trace w) = [].
Proof. cbv zeta. split; vm_compute; reflexivity. Qed.

(** ** Naming *)

Lemma keeps_start s th :
  activeThread s = Some th -> namesSynced s ->
  Keeps th (map name (threads s)) s.
Proof.
  intros Ha Hs. repeat split; eauto.
Qed.

Lemma keeps_with_messages th names s ms :
  Keeps th names s -> Keeps th names (with_messages s ms).
Proof. exact (fun H => H). Qed.

Lemma keeps_with_isLoading th names s b :
  Keeps th names s -> Keeps th names (with_isLoading s b).
Proof. exact (fun H => H). Qed.

(** [addMessage] refreshes the thread it finds by identifier: the name
    stays. *)
Lemma keeps_replace th names s t d :
  Keeps th names s ->
  find (fun t => String.eqb (threadId t) (threadId th)) (threads s) = Some t ->
  Keeps th names (replaceThread (with_lastUpdated t d) s).
Proof.
  intros ((a & Ha & Hid & Hname) & Hsync & Hnames) Hf.
  apply find_some in Hf as [Hin Heq]. apply String.eqb_eq in Heq.
  pose proof (Hsync t Hin Heq) as Ht.
  unfold Keeps, replaceThread. cbn. rewrite Ha, Hid, Heq, String.eqb_refl.
  split; [eexists; repeat split; cbn; auto|]. split.
  - intros t' Hin' Hid'. apply in_map_iff in Hin' as (x & Hx & Hinx).
    destruct (String.eqb (threadId x) (threadId th)); subst t'; cbn; auto.
  - rewrite <- Hnames, map_map. apply map_ext_in. intros x Hx.
    destruct (String.eqb (threadId x) (threadId th)) eqn:E; [|reflexivity].
    apply String.eqb_eq in E. cbn. rewrite Ht. symmetry. now apply Hsync.
Qed.

Lemma keeps_synced th names s : Keeps th names s -> namesSynced s.
Proof.
  intros ((a & Ha & Hid & Hname) & Hsync & _) a' t Ha' Hin Heq.
  assert (a' = a) by congruence. subst a'.
  rewrite Hname. apply Hsync; congruence.
Qed.

Lemma keeps_activeName th names s :
  Keeps th names s -> activeName s = Some (name th).
Proof.
  intros ((a & Ha & _ & Hname) & _). unfold activeName. now rewrite Ha, Hname.
Qed.

Ltac keeps :=
  repeat first
    [ apply keeps_with_isLoading
    | apply keeps_with_messages
    | eapply keeps_replace; [|eassumption]
    | apply keeps_start; assumption ].

(** A turn that does not rename (the name lacks the prefix, or the turn
    fails) leaves the names as they are. *)
Lemma turn_keeps env s u th :
  activeThread s = Some th -> namesSynced s ->
  JS.startsWith (name th) "Thread " = false
  \/ error (chat (turn env s u)) <> None ->
  Keeps th (map name (threads s)) (store (turn env s u)).
Proof.
  intros Ha Hs. turn_post.
  rewrite Ha. wp_folded.
  all: intros [Hp|He]; try congruence; try (cbn in He; congruence).
  all: keeps.

Qed.

Lemma activeId_start s th : activeThread s = Some th -> ActiveId th s.
Proof. intros H. exists th. auto. Qed.

Lemma activeId_with_messages th s ms :
  ActiveId th s -> ActiveId th (with_messages s ms).
Proof. exact (fun H => H). Qed.

Lemma activeId_with_isLoading th s b :
  ActiveId th s -> ActiveId th (with_isLoading s b).
Proof. exact (fun H => H). Qed.

Lemma activeId_replace th s t :
  ActiveId th s -> ActiveId th (replaceThread t s).
Proof.
  intros (a & Ha & Hid). unfold ActiveId, replaceThread. cbn. rewrite Ha.
  destruct (String.eqb (threadId a) (threadId t)) eqn:E; eexists; split;
    try reflexivity; [|assumption].
  apply String.eqb_eq in E. congruence.
Qed.

Lemma activeName_renamed th s n b :
  ActiveId th s ->
  activeName (with_isLoading (replaceThread (with_name th n) s) b) = Some n.
Proof.
  intros (a & Ha & Hid). unfold activeName, replaceThread. cbn.
  rewrite Ha, Hid, String.eqb_refl. reflexivity.
Qed.

Ltac active_id :=
  repeat first
    [ apply activeId_with_isLoading
    | apply activeId_with_messages
    | apply activeId_replace
    | apply activeId_start; assumption ].

(** A successful turn on a thread whose name has the prefix renames it. *)
Lemma turn_renames env s u th :
  validated s u = true -> activeThread s = Some th ->
  JS.startsWith (name th) "Thread " = true ->
  error (chat (turn env s u)) = None ->
  activeName (store (turn env s u)) = Some (derivedName (input u)).
Proof.
  intros Hv Ha Hp. 
  destruct (validated_true _ _ Hv) as (Hin & _ & (cfg & Hcfg)).
  turn_post. unfold handleSendMessage. simpl_folded.
  rewrite Ha, Hcfg. simpl_folded. rewrite Hin. cbn [negb].
  wp_folded.
  all: intros He; try discriminate He.
  all: apply activeName_renamed; active_id.
Qed.

Lemma default_name_has_prefix s tid d1 d2 :
  JS.startsWith (name (newThread s tid d1 d2)) "Thread " = true.
Proof.
  unfold JS.startsWith, newThread. cbn.
  now destruct (decimal (length (threads s) + 1)).
Qed.

Lemma submitAll_keeps_name xs : forall s u th,
  activeThread s = Some th -> namesSynced s ->
  JS.startsWith (name th) "Thread " = false ->
  activeName (fst (submitAll xs (s, u))) = Some (name th).
Proof.
  induction xs as [|x xs IH]; intros s u th Ha Hs Hp.
  - cbn. unfold activeName. now rewrite Ha.
  - cbn [submitAll fold_left]. unfold submit at 2. cbn [fst snd].
    match goal with
    | |- context [turn ?env s ?u'] =>
        pose proof (turn_keeps env s u' th Ha Hs (or_introl Hp)) as K
    end.
    pose proof (keeps_synced th _ _ K) as Hs'.
    destruct K as ((a & Ha' & _ & Hname) & _).
    fold (submitAll xs).
    rewrite (IH _ _ a Ha' Hs'); congruence.
Qed.

Lemma allDigits_string_of_uint d :
  allDigits (NilEmpty.string_of_uint d) = true.
Proof. induction d; cbn; auto. Qed.

Lemma decimal_digits n :
  allDigits (decimal n) = true /\ decimal n <> "".
Proof.
  unfold decimal, NilZero.string_of_uint.
  destruct (Nat.to_uint n) as [|d|d|d|d|d|d|d|d|d|d]; cbn;
    (split; [try reflexivity; apply allDigits_string_of_uint | discriminate]).
Qed.

Lemma substring_all s : substring 0 (String.length s) s = s.
Proof. induction s as [|c s IH]; cbn; [reflexivity | now rewrite IH]. Qed.

Lemma default_name_matches s tid d1 d2 :
  matchesDefaultPattern (name (newThread s tid d1 d2)) = true.
Proof.
  unfold matchesDefaultPattern, JS.startsWith, newThread.
  cbn [name]. set (x := decimal (length (threads s) + 1)).
  destruct (decimal_digits (length (threads s) + 1)) as [Hd Hne].
  fold x in Hd, Hne.
  cbn. rewrite Nat.sub_0_r, substring_all, Hd.
  destruct x; [congruence | reflexivity].
Qed.

Lemma matchesDefaultPattern_prefix n :
  matchesDefaultPattern n = true -> JS.startsWith n "Thread " = true.
Proof.
  unfold matchesDefaultPattern. rewrite !andb_true_iff. tauto.
Qed.

Lemma NoDup_map_injective {A B} (f : A -> B) l x y :
  NoDup (map f l) -> In x l -> In y l -> f x = f y -> x = y.
Proof.
  induction l as [|a l IH]; cbn; [tauto|].
  intros Hnd. inversion Hnd as [|? ? Hnotin Hnd']; subst.
  intros [<-|Hx] [<-|Hy] Heq; auto.
  - exfalso. apply Hnotin. rewrite Heq. now apply in_map.
  - exfalso. apply Hnotin. rewrite <- Heq. now apply in_map.
Qed.

(** Unique identifiers and an active thread taken from the list give
    synced names. *)
Lemma namesSynced_unique s a :
  activeThread s = Some a -> In a (threads s) ->
  NoDup (map threadId (threads s)) -> namesSynced s.
Proof.
  intros Ha Hin Hnd a' t Ha' Ht Heq.
  assert (a' = a) by congruence. subst a'.
  now rewrite (NoDup_map_injective threadId (threads s) t a Hnd Ht Hin Heq).
Qed.

(** What the guard [startsWith('Thread ')] does ensure.  Every name
    [handleCreateThread] assigns is of the default pattern, "Thread "
    followed by a number.  A successful turn on a thread whose name is
    of the default pattern renames it to [derivedName] of the input.  A
    turn never renames when the name the thread had at the start of the
    turn does not start with "Thread ", nor when the turn fails.  The
    guard is looser than the default pattern: see the theorem that
    follows. *)
Lemma rename_guard :
  (forall s tid d1 d2,
     matchesDefaultPattern (name (newThread s tid d1 d2)) = true)
  /\ (forall env s u th,
        activeThread s = Some th -> namesSynced s ->
        (JS.startsWith (name th) "Thread " = false
         \/ error (chat (turn env s u)) <> None ->
         activeName (store (turn env s u)) = Some (name th)
         /\ map name (threads (store (turn env s u)))
            = map name (threads s))
        /\ (validated s u = true ->
            matchesDefaultPattern (name th) = true ->
            error (chat (turn env s u)) = None ->
            activeName (store (turn env s u))
            = Some (derivedName (input u))))
  /\ (forall xs s u th,
        activeThread s = Some th -> namesSynced s ->
        JS.startsWith (name th) "Thread " = false ->
        activeName (fst (submitAll xs (s, u))) = Some (name th)).
Proof.
  split; [exact default_name_matches|]. split.
  - intros env s u th Ha Hs. split.
    + intros H. pose proof (turn_keeps env s u th Ha Hs H) as K.
      split; [exact (keeps_activeName th _ _ K) | exact (proj2 (proj2 K))].
    + intros Hv Hp He.
      apply (turn_renames env s u th); auto.
      now apply matchesDefaultPattern_prefix.
  - intros xs s u th. apply submitAll_keeps_name.
Qed.

(** C4. The claim fails on the code for a thread that a turn has named
    after an input starting with "Thread ".  On the thread "Thread 1",
    the successful turn with input "Thread safety in Rust please" names
    the thread "Thread safety in Rust...", which is not of the default
    pattern ("Thread " followed by a number); the next successful turn,
    with input "Tell me more", overwrites that name with
    "Tell me more...". *)
Theorem C4_derived_name_is_overwritten :
  let start := (emptyConversation directConfig, typed "") in
  let first := submitAll [says "Thread safety in Rust please" "Sure"] start in
  let second := submitAll [says "Thread safety in Rust please" "Sure";
                           says "Tell me more" "More"] start in
  activeName (fst start) = Some "Thread 1"
  /\ matchesDefaultPattern "Thread 1" = true
  /\ error (snd first) = None
  /\ activeName (fst first) = Some "Thread safety in Rust..."
  /\ matchesDefaultPattern "Thread safety in Rust..." = false
  /\ error (snd second) = None
  /\ activeName (fst second) = Some "Tell me more..."
  /\ map name (threads (fst second)) = ["Tell me more..."].
Proof. cbv zeta. repeat split; vm_compute; reflexivity. Qed.

(** The derived name is cut at single spaces, where the specification
    speaks of white space: on an input with a double space and a tab
    the two differ. *)
Example name_is_cut_at_single_spaces :
  derivedName spacedInput <> spec_autoName spacedInput.
Proof. vm_compute. discriminate. Qed.

(** A name that does not start with "Thread " survives later turns. *)
Example custom_name_is_kept :
  activeName
    (fst (submitAll [says "Hello" "Hi"; says "Tell me more" "More"]
            (namedConversation directConfig, typed "")))
  = Some "Rust notes".
Proof. vm_compute. reflexivity. Qed.

(** ** Further scenarios *)

(** With twelve earlier messages the history holds the last ten of the
    thread, oldest first, then the new input. *)
Example direct_history_of_twelve :
  map (map cm_content)
    (completionHistories
       (trace (turn (scripted [] [] "Sure") (longConversation directConfig)
                 (typed "Next"))))
  = [["3"; "4"; "5"; "6"; "7"; "8"; "9"; "10"; "11"; "12"; "Next"]].
Proof. vm_compute. reflexivity. Qed.

(** The direct scenario of the specification: the store gains the user's
    message and one assistant message "Hi there". *)
Example direct_hello :
  map (fun m => (role m, content m))
    (messages (store (turn (scripted [] [] "Hi there")
                        (emptyConversation directConfig) (typed "Hello"))))
  = [(user, "Hello"); (assistant, "Hi there")].
Proof. vm_compute. reflexivity. Qed.

(** The status the run start returns is not a status read: when the
    start returns queued and the reads answer in_progress, in_progress,
    completed, three reads are issued. *)
Example start_status_is_not_a_read :
  statusReadsIn
    (trace (turn (scripted [in_progress; in_progress; completed]
                    newestFirstEntries "")
              (emptyConversation assistedConfig) (typed "Hello")))
  = 3.
Proof. vm_compute. reflexivity. Qed.

(** A run that stays in_progress: sixty reads, the timed-out error, no
    message but the user's, the thread's name unchanged. *)
Example stuck_run_times_out :
  let w := turn neverCompletes (emptyConversation assistedConfig)
             (typed "Hello") in
  statusReadsIn (trace w) = 60
  /\ error (chat w) = Some "Assistant run timed out. Please try again."
  /\ map role (messages (store w)) = [user]
  /\ activeName (store w) = Some "Thread 1".
Proof. vm_compute. repeat split. Qed.


(** * Further properties of the code *)

(** ** The store *)

Lemma filter_other_thread tid tid' (ms : list Message) :
  tid' <> tid ->
  filter (fun m => String.eqb (msg_threadId m) tid')
         (filter (fun m => negb (String.eqb (msg_threadId m) tid)) ms)
  = filter (fun m => String.eqb (msg_threadId m) tid') ms.
Proof.
  intros Hne. induction ms as [|m ms IH]; [reflexivity|].
  cbn. destruct (String.eqb (msg_threadId m) tid) eqn:E; cbn.
  - apply String.eqb_eq in E.
    destruct (String.eqb (msg_threadId m) tid') eqn:E'; [|exact IH].
    apply String.eqb_eq in E'. congruence.
  - now rewrite IH.
Qed.

(** X1. [deleteThread] removes the thread together with all its
    messages and nothing else: the thread list and the message list are
    the earlier lists without the entries of that identifier, the others
    in their order and as often as before; so the messages of every
    other thread and the other threads stay.  The active thread is kept
    unless it is the deleted one, and the configurations are
    untouched. *)
Theorem X1_deleteThread_cascades tid env w :
  let s := store w in
  let s' := store (snd (deleteThread tid env w)) in
  getThreadMessages tid s' = []
  /\ (forall tid', tid' <> tid ->
                   getThreadMessages tid' s' = getThreadMessages tid' s)
  /\ threads s'
     = filter (fun t => negb (String.eqb (threadId t) tid)) (threads s)
  /\ messages s'
     = filter (fun m => negb (String.eqb (msg_threadId m) tid)) (messages s)
  /\ (forall t, In t (threads s') <-> In t (threads s) /\ threadId t <> tid)
  /\ (forall a, activeThread s' = Some a <->
                activeThread s = Some a /\ threadId a <> tid)
  /\ configurations s' = configurations s
  /\ activeConfiguration s' = activeConfiguration s.
Proof.
  cbn. unfold getThreadMessages. cbn.
  split; [|split; [|split; [reflexivity|split; [reflexivity|]]]].
  - induction (messages (store w)) as [|m ms IH]; [reflexivity|].
    cbn. destruct (String.eqb (msg_threadId m) tid) eqn:E; cbn; [exact IH|].
    now rewrite E.
  - intros tid' Hne. now apply filter_other_thread.
  - repeat split.
    + apply filter_In in H. tauto.
    + apply filter_In in H as [_ H]. apply negb_true_iff in H.
      now apply String.eqb_neq.
    + intros [Hin Hne]. apply filter_In. split; [assumption|].
      apply negb_true_iff. now apply String.eqb_neq.
    + destruct (activeThread (store w)) as [a'|]; [|discriminate].
      destruct (String.eqb (threadId a') tid); congruence.
    + destruct (activeThread (store w)) as [a'|]; [|discriminate].
      destruct (String.eqb (threadId a') tid) eqn:E; [discriminate|].
      apply String.eqb_neq in E. congruence.
    + intros [Ha Hne]. rewrite Ha.
      apply String.eqb_neq in Hne. now rewrite Hne.
Qed.

Lemma X1_deleteThread_cascades_witness :
  let w := begin (longConversation directConfig) (typed "") in
  map content
    (getThreadMessages "thread_2"
       (store (snd (deleteThread "thread_1" (scripted [] [] "") w))))
  = ["99"]
  /\ map content
       (messages (store (snd (deleteThread "thread_1" (scripted [] [] "") w))))
     = ["99"]
  /\ threads (store (snd (deleteThread "thread_1" (scripted [] [] "") w)))
     = []
  /\ activeThread (store (snd (deleteThread "thread_2" (scripted [] [] "") w)))
     = Some thread1.
Proof.
  cbv zeta.
  pose proof (X1_deleteThread_cascades "thread_1" (scripted [] [] "")
                (begin (longConversation directConfig) (typed "")))
    as (_ & Hother & Hthreads & Hmessages & _).
  pose proof (X1_deleteThread_cascades "thread_2" (scripted [] [] "")
                (begin (longConversation directConfig) (typed "")))
    as (_ & _ & _ & _ & _ & Hactive & _).
  split; [|split; [|split]].
  - rewrite (Hother "thread_2"); [reflexivity | discriminate].
  - rewrite Hmessages. reflexivity.
  - rewrite Hthreads. reflexivity.
  - apply (Hactive thread1). split; [reflexivity | discriminate].
Defined.

Lemma with_threads_same s : with_threads s (threads s) (activeThread s) = s.
Proof. now destruct s. Qed.

(** X2. [updateThread] never adds or removes a thread: the list keeps
    its length and its identifiers, the messages stay, and when no thread
    of the list and not the active thread has the identifier, the store
    does not change at all. *)
Theorem X2_updateThread_replaces_in_place thread env w :
  let s := store w in
  let s' := store (snd (updateThread thread env w)) in
  map threadId (threads s') = map threadId (threads s)
  /\ messages s' = messages s
  /\ ((forall t, In t (threads s) -> threadId t <> threadId thread) ->
      (forall a, activeThread s = Some a -> threadId a <> threadId thread) ->
      s' = s).
Proof.
  cbn. unfold replaceThread. cbn. split; [|split; [reflexivity|]].
  - rewrite map_map. apply map_ext. intros t.
    destruct (String.eqb (threadId t) (threadId thread)) eqn:E;
      [|reflexivity].
    apply String.eqb_eq in E. congruence.
  - intros Hlist Hactive.
    transitivity (with_threads (store w) (threads (store w))
                    (activeThread (store w)));
      [|apply with_threads_same].
    f_equal.
    + transitivity (map (fun t : Thread => t) (threads (store w)));
        [|apply map_id].
      apply map_ext_in. intros t Ht.
      specialize (Hlist t Ht). apply String.eqb_neq in Hlist.
      now rewrite Hlist.
    + destruct (activeThread (store w)) as [a|]; [|reflexivity].
      specialize (Hactive a eq_refl). apply String.eqb_neq in Hactive.
      now rewrite Hactive.
Qed.

Lemma X2_updateThread_replaces_in_place_witness :
  store (snd (updateThread (with_name (with_lastUpdated thread1 7%Z) "x")
                (scripted [] [] "")
                (begin (noThread directConfig) (typed ""))))
  = noThread directConfig.
Proof.
  apply (proj2 (proj2 (X2_updateThread_replaces_in_place
                         (with_name (with_lastUpdated thread1 7%Z) "x")
                         (scripted [] [] "")
                         (begin (noThread directConfig) (typed ""))))).
  - intros t [].
  - intros a H. discriminate H.
Defined.

Lemma addMessage_store message env w :
  fst (addMessage message env w) = Ok tt
  /\ messages (store (snd (addMessage message env w)))
     = messages (store w) ++ [with_id message (clock env (clockReads w))]
  /\ match find (fun t => String.eqb (threadId t) (msg_threadId message))
                (threads (store w)) with
     | Some thread =>
         threads (store (snd (addMessage message env w)))
         = map (fun t => if String.eqb (threadId t) (threadId thread)
                         then with_lastUpdated thread
                                (clock env (S (clockReads w)))
                         else t)
               (threads (store w))
     | None =>
         threads (store (snd (addMessage message env w))) = threads (store w)
     end.
Proof.
  unfold addMessage, bind, now, log, setStore, getStore, updateThread, bind,
    log, setStore, ret.
  cbn.
  destruct (find _ (threads (store w))); cbn; auto.
Qed.

(** X3. [addMessage] never fails and appends the message, stamped with
    the clock reading as identifier, at the end of the store's list: the
    messages of its thread gain it as their last element and those of
    the other threads are the same.  No thread is created or removed
    (a message for an unknown thread is stored all the same), and every
    thread of the list that has the message's thread identifier gets the
    next clock reading as [lastUpdated]. *)
Theorem X3_addMessage_appends message env w :
  let s := store w in
  let s' := store (snd (addMessage message env w)) in
  let stored := with_id message (clock env (clockReads w)) in
  fst (addMessage message env w) = Ok tt
  /\ (forall tid,
        getThreadMessages tid s'
        = getThreadMessages tid s
            ++ (if String.eqb (msg_threadId message) tid then [stored]
                else []))
  /\ map threadId (threads s') = map threadId (threads s)
  /\ (forall t, In t (threads s') -> threadId t = msg_threadId message ->
                lastUpdated t = clock env (S (clockReads w))).
Proof.
  cbv zeta. destruct (addMessage_store message env w) as (Hok & Hm & Ht).
  split; [exact Hok|]. split; [|split].
  - intros tid. unfold getThreadMessages. rewrite Hm, filter_app.
    reflexivity.
  - destruct (find _ (threads (store w))) as [thread|]; rewrite Ht;
      [|reflexivity].
    rewrite map_map. apply map_ext. intros t.
    destruct (String.eqb (threadId t) (threadId thread)) eqn:E;
      [|reflexivity].
    apply String.eqb_eq in E. now cbn.
  - intros t Hin Hid.
    destruct (find _ (threads (store w))) as [thread|] eqn:Hf;
      rewrite Ht in Hin.
    + apply find_some in Hf as [_ Hf]. apply String.eqb_eq in Hf.
      apply in_map_iff in Hin as (x & Hx & _).
      destruct (String.eqb (threadId x) (threadId thread)) eqn:E.
      * now subst t.
      * subst t. apply String.eqb_neq in E. congruence.
    + pose proof (find_none _ _ Hf t Hin) as Hn. cbn in Hn.
      apply String.eqb_neq in Hn. congruence.
Qed.

Lemma X3_addMessage_appends_witness :
  let env := scripted [] [] "" in
  let w := begin (emptyConversation directConfig) (typed "") in
  let w' := snd (addMessage (numbered "thread_1" 3) env w) in
  map content (getThreadMessages "thread_1" (store w')) = ["3"]
  /\ forall t, In t (threads (store w')) -> threadId t = "thread_1" ->
               lastUpdated t = 6000%Z.
Proof.
  cbv zeta. split.
  - rewrite (proj1 (proj2 (X3_addMessage_appends (numbered "thread_1" 3)
                             (scripted [] [] "")
                             (begin (emptyConversation directConfig)
                                (typed ""))))).
    reflexivity.
  - exact (proj2 (proj2 (proj2 (X3_addMessage_appends
                                  (numbered "thread_1" 3) (scripted [] [] "")
                                  (begin (emptyConversation directConfig)
                                     (typed "")))))).
Defined.

Lemma filter_fresh_id i (ms : list Message) :
  (forall m, In m ms -> msg_id m <> Some i) ->
  filter (fun m => negb (msg_id_eqb (msg_id m) (Some i))) ms = ms.
Proof.
  induction ms as [|m ms IH]; intros Hfresh; [reflexivity|].
  cbn. assert (Hm0 : msg_id m <> Some i) by (apply Hfresh; now left).
  assert (E : msg_id_eqb (msg_id m) (Some i) = false).
  { destruct (msg_id m) as [j|]; cbn; [|reflexivity].
    apply Z.eqb_neq. congruence. }
  rewrite E. cbn. f_equal. apply IH. intros m' Hin. apply Hfresh. now right.
Qed.

Lemma filter_fresh_cfg_id i (cs : list Configuration) :
  (forall c, In c cs -> cfg_id c <> Some i) ->
  filter (fun c => negb (id_eqb (cfg_id c) (Some i))) cs = cs.
Proof.
  induction cs as [|c cs IH]; intros Hfresh; [reflexivity|].
  cbn. assert (Hc : cfg_id c <> Some i) by (apply Hfresh; now left).
  assert (E : id_eqb (cfg_id c) (Some i) = false).
  { destruct (cfg_id c) as [j|]; cbn; [|reflexivity].
    apply String.eqb_neq. congruence. }
  rewrite E. cbn. f_equal. apply IH. intros c' Hin. apply Hfresh. now right.
Qed.

(** X4. [deleteMessage] removes every message that carries the
    identifier.  Deleting the identifier [addMessage] has just given
    restores the earlier list when no earlier message carries it; an
    earlier message with the same identifier (one added at the same
    clock reading) is deleted as well. *)
Theorem X4_addMessage_deleteMessage message env w :
  let i := clock env (clockReads w) in
  let w1 := snd (addMessage message env w) in
  let w2 := snd (deleteMessage i env w1) in
  messages (store w2)
  = filter (fun m => negb (msg_id_eqb (msg_id m) (Some i)))
           (messages (store w))
  /\ ((forall m, In m (messages (store w)) -> msg_id m <> Some i) ->
      messages (store w2) = messages (store w)).
Proof.
  cbv zeta. destruct (addMessage_store message env w) as (_ & Hm & _).
  assert (E : messages
                (store (snd (deleteMessage (clock env (clockReads w)) env
                               (snd (addMessage message env w)))))
              = filter (fun m => negb (msg_id_eqb (msg_id m)
                                         (Some (clock env (clockReads w)))))
                  (messages (store w))).
  { unfold deleteMessage, setStore.
    cbn [snd store messages with_messages]. rewrite Hm, filter_app. cbn.
    rewrite Z.eqb_refl. cbn. apply app_nil_r. }
  split; [exact E|].
  intros Hfresh. rewrite E. now apply filter_fresh_id.
Qed.

Lemma X4_addMessage_deleteMessage_witness :
  let env := scripted [] [] "" in
  let w := begin (longConversation directConfig) (typed "") in
  messages
    (store (snd (deleteMessage 5000%Z env
                   (snd (addMessage (numbered "thread_1" 13) env w)))))
  = messages (longConversation directConfig).
Proof.
  cbv zeta.
  apply (proj2 (X4_addMessage_deleteMessage (numbered "thread_1" 13)
                  (scripted [] [] "")
                  (begin (longConversation directConfig) (typed "")))).
  intros m Hin.
  repeat (destruct Hin as [<-|Hin]; [discriminate|]). destruct Hin.
Defined.

(** X5. Adding a configuration appends it under the identifier rendered
    from the clock and makes it the active one exactly when it is marked
    default.  Deleting that identifier again restores the list when the
    identifier was not in use; but the active configuration is then
    gone for a default one, even if another configuration was active
    before, and it is the earlier one for a configuration that is not
    default. *)
Theorem X5_addConfiguration_deleteConfiguration config given env w :
  let i := decimalZ (clock env (clockReads w)) in
  let s := store w in
  let s1 := store (snd (addConfiguration config given env w)) in
  let s2 := store (snd (deleteConfiguration i env
                          (snd (addConfiguration config given env w)))) in
  configurations s1 = configurations s ++ [newConfiguration config given i]
  /\ activeConfiguration s1
     = (if isDefault config then Some (newConfiguration config given i)
        else activeConfiguration s)
  /\ ((forall c, In c (configurations s) -> cfg_id c <> Some i) ->
      configurations s2 = configurations s
      /\ (isDefault config = true -> activeConfiguration s2 = None)
      /\ (isDefault config = false ->
          (forall a, activeConfiguration s = Some a -> cfg_id a <> Some i) ->
          activeConfiguration s2 = activeConfiguration s)).
Proof.
  cbv zeta. unfold addConfiguration, deleteConfiguration, bind, now, setStore.
  cbn. split; [reflexivity|]. split; [reflexivity|].
  intros Hfresh. split; [|split].
  - rewrite filter_app. cbn. rewrite String.eqb_refl. cbn.
    rewrite app_nil_r. now apply filter_fresh_cfg_id.
  - intros Hd. unfold activeConfigurationHas. cbn. rewrite Hd. cbn.
    now rewrite String.eqb_refl.
  - intros Hd Ha. unfold activeConfigurationHas. cbn. rewrite Hd.
    destruct (activeConfiguration (store w)) as [a|]; [|reflexivity].
    specialize (Ha a eq_refl).
    destruct (cfg_id a) as [j|]; cbn; [|reflexivity].
    assert (E : String.eqb j (decimalZ (clock env (clockReads w))) = false)
      by (apply String.eqb_neq; congruence).
    now rewrite E.
Qed.

Lemma X5_addConfiguration_deleteConfiguration_witness :
  let env := scripted [] [] "" in
  let w := begin (emptyConversation directConfig) (typed "") in
  let s2 := store (snd (deleteConfiguration "5000" env
                          (snd (addConfiguration assistedConfig (Some true)
                                  env w)))) in
  configurations s2 = [directConfig] /\ activeConfiguration s2 = None.
Proof.
  cbv zeta.
  pose proof (proj2 (proj2 (X5_addConfiguration_deleteConfiguration
                              assistedConfig (Some true) (scripted [] [] "")
                              (begin (emptyConversation directConfig)
                                 (typed ""))))) as H.
  cbv zeta in H.
  assert (Hfresh : forall c,
             In c (configurations
                     (store (begin (emptyConversation directConfig)
                               (typed "")))) ->
             cfg_id c <> Some (decimalZ (clock (scripted [] [] "")
                 (clockReads (begin (emptyConversation directConfig)
                                (typed "")))))).
  { intros c [<-|[]]. vm_compute. discriminate. }
  destruct (H Hfresh) as (Hc & Hd & _).
  split; [exact Hc | exact (Hd eq_refl)].
Defined.

(** ** Thread creation *)

Lemma rejected_exclusive e a b :
  rejected e a = true -> a <> b -> rejected e b = false.
Proof.
  unfold rejected, status_is. destruct (isAxiosError e); [|discriminate].
  destruct (response_status e) as [c|]; [|discriminate]. cbn.
  intros Ha Hne. apply Z.eqb_eq in Ha. subst c. now apply Z.eqb_neq.
Qed.

(** X6. A thread creation that fails adds nothing: with an assisted
    configuration, a rejected [POST /threads] and the fallback declined,
    the threads, the active thread, the messages and the configurations
    are as before, the loading flags are cleared, and the error shown is
    the fixed message for the HTTP status (401, 429, 404, 500) or the
    general one, never the gateway's own text.  Without an active
    configuration nothing happens at all. *)
Theorem X6_failed_creation_adds_nothing answers env s t :
  (activeConfiguration s = None -> createThreadOn answers env s t = (s, t))
  /\ (forall cfg e,
        activeConfiguration s = Some cfg ->
        useAssistantApi cfg && JS.truthy (assistantId cfg) = true ->
        post_threads answers = inl e -> confirmed answers = false ->
        fst (createThreadOn answers env s t) = with_isLoading s false
        /\ isCreating (snd (createThreadOn answers env s t)) = false
        /\ (rejected e 401 = true ->
            tl_error (snd (createThreadOn answers env s t))
            = Some "Authentication failed. Please check your API key.")
        /\ (rejected e 429 = true ->
            tl_error (snd (createThreadOn answers env s t))
            = Some "Rate limit exceeded. Please try again later.")
        /\ (rejected e 404 = true ->
            tl_error (snd (createThreadOn answers env s t))
            = Some "Assistants API not available for your account.")
        /\ (rejected e 500 = true ->
            tl_error (snd (createThreadOn answers env s t))
            = Some "OpenAI server error. Please try again later.")
        /\ (rejected e 401 = false -> rejected e 429 = false ->
            rejected e 404 = false -> rejected e 500 = false ->
            tl_error (snd (createThreadOn answers env s t))
            = Some "Failed to create thread. Please try again.")).
Proof.
  unfold createThreadOn, handleCreateThread. split.
  - intros ->. reflexivity.
  - intros cfg e -> Hg Hp Hc.
    unfold createThreadBody, createThread, bind, tryCatch, await, setLoading,
      setStore, throw.
    cbn. rewrite Hg, Hp, Hc. fold (rejected e 401) (rejected e 429)
      (rejected e 404) (rejected e 500).
    assert (H401 : rejected e 401 = true -> rejected e 429 = false
                   /\ rejected e 404 = false /\ rejected e 500 = false)
      by (intros H; repeat split; apply (rejected_exclusive e 401);
          auto; discriminate).
    assert (H429 : rejected e 429 = true -> rejected e 401 = false
                   /\ rejected e 404 = false /\ rejected e 500 = false)
      by (intros H; repeat split; apply (rejected_exclusive e 429);
          auto; discriminate).
    assert (H404 : rejected e 404 = true -> rejected e 401 = false
                   /\ rejected e 429 = false /\ rejected e 500 = false)
      by (intros H; repeat split; apply (rejected_exclusive e 404);
          auto; discriminate).
    destruct (rejected e 401) eqn:E1; [|destruct (rejected e 429) eqn:E2;
      [|destruct (rejected e 404) eqn:E3; [|destruct (rejected e 500) eqn:E4]]];
      cbn; repeat split; intros; try reflexivity; try discriminate;
      try (destruct (H401 eq_refl) as (?&?&?); congruence);
      try (destruct (H429 eq_refl) as (?&?&?); congruence);
      try (destruct (H404 eq_refl) as (?&?&?); congruence).
Qed.

Lemma X6_failed_creation_adds_nothing_witness :
  let r := createThreadOn (creationRejected 429 false) (scripted [] [] "")
             (emptyConversation assistedConfig) idle in
  fst r = emptyConversation assistedConfig
  /\ tl_error (snd r) = Some "Rate limit exceeded. Please try again later.".
Proof.
  cbv zeta.
  destruct (proj2 (X6_failed_creation_adds_nothing
                     (creationRejected 429 false) (scripted [] [] "")
                     (emptyConversation assistedConfig) idle)
              assistedConfig (rejection 429) eq_refl eq_refl eq_refl eq_refl)
    as (Hs & _ & _ & H429 & _).
  split; [exact Hs | exact (H429 eq_refl)].
Defined.

Lemma createThreadOn_settled answers env s t cfg tid :
  activeConfiguration s = Some cfg ->
  settledThreadId cfg answers env = Some tid ->
  exists d1 d2,
    createThreadOn answers env s t
    = (with_isLoading
         (with_threads s (threads s ++ [newThread s tid d1 d2])
            (Some (newThread s tid d1 d2)))
         false,
       idle).
Proof.
  intros Hc. unfold settledThreadId, createThreadOn, handleCreateThread.
  rewrite Hc.
  unfold createThreadBody, createThread, localThreadId, addThread, bind,
    tryCatch, await, setLoading, setStore, throw, now, ret.
  cbn.
  destruct (useAssistantApi cfg && JS.truthy (assistantId cfg)).
  - destruct (post_threads answers) as [e|r].
    + destruct (confirmed answers); [|discriminate].
      intros [= <-].
      destruct (isAxiosError e && status_is e 401);
        [|destruct (isAxiosError e && status_is e 429);
          [|destruct (isAxiosError e && status_is e 404);
            [|destruct (isAxiosError e && status_is e 500)]]];
        cbn; eexists; eexists; reflexivity.
    + intros [= <-]. cbn. eexists; eexists; reflexivity.
  - intros [= <-]. cbn. eexists; eexists; reflexivity.
Qed.

(** X7. A thread creation that settles on an identifier (the gateway's
    for an assisted configuration, a local one for a direct
    configuration or when the fallback is accepted after a rejection)
    appends one thread to the list and makes it the active one.  The
    thread is named "Thread " and the number of threads plus one; the
    earlier threads, the messages and the configurations are untouched,
    the loading flags are cleared and so is an earlier error. *)
Theorem X7_creation_appends_active_thread answers env s t cfg tid :
  activeConfiguration s = Some cfg ->
  settledThreadId cfg answers env = Some tid ->
  let s' := fst (createThreadOn answers env s t) in
  (exists nt,
     threads s' = threads s ++ [nt] /\ activeThread s' = Some nt
     /\ threadId nt = tid
     /\ name nt = ("Thread " ++ decimal (length (threads s) + 1))%string)
  /\ messages s' = messages s
  /\ configurations s' = configurations s
  /\ activeConfiguration s' = Some cfg
  /\ isLoading s' = false
  /\ snd (createThreadOn answers env s t) = idle.
Proof.
  intros Hc Hs.
  destruct (createThreadOn_settled answers env s t cfg tid Hc Hs)
    as (d1 & d2 & E).
  cbv zeta. rewrite E. cbn. repeat split; auto.
  eexists. repeat split.
Qed.

Lemma X7_creation_appends_active_thread_witness :
  let s' := fst (createThreadOn (creationAccepted "thread_9")
                   (scripted [] [] "") (emptyConversation assistedConfig)
                   idle) in
  exists nt,
    threads s' = [thread1; nt] /\ activeThread s' = Some nt
    /\ threadId nt = "thread_9" /\ name nt = "Thread 2".
Proof.
  exact (proj1 (X7_creation_appends_active_thread
                  (creationAccepted "thread_9") (scripted [] [] "")
                  (emptyConversation assistedConfig) idle assistedConfig
                  "thread_9" eq_refl eq_refl)).
Defined.

(** ** The turn: what else it does and does not *)

Lemma webhookCalls_app tr1 tr2 :
  webhookCalls (tr1 ++ tr2) = webhookCalls tr1 ++ webhookCalls tr2.
Proof.
  induction tr1 as [|e tr1 IH]; [reflexivity|].
  destruct e; cbn; rewrite IH; reflexivity.
Qed.

Lemma webhookCalls_pollEvents n tid rid :
  webhookCalls (pollEvents n tid rid) = [].
Proof. induction n; [reflexivity | exact IHn]. Qed.

Lemma completionHistories_app tr1 tr2 :
  completionHistories (tr1 ++ tr2)
  = completionHistories tr1 ++ completionHistories tr2.
Proof.
  induction tr1 as [|e tr1 IH]; [reflexivity|].
  destruct e; cbn; rewrite IH; reflexivity.
Qed.

Lemma completionHistories_pollEvents n tid rid :
  completionHistories (pollEvents n tid rid) = [].
Proof. induction n; [reflexivity | exact IHn]. Qed.

Ltac log_norm :=
  cbn [appendedMessages webhookCalls completionHistories app];
  rewrite ?appendedMessages_app, ?appendedMessages_pollEvents,
    ?webhookCalls_app, ?webhookCalls_pollEvents,
    ?completionHistories_app, ?completionHistories_pollEvents;
  cbn [appendedMessages webhookCalls completionHistories app].

(** What every turn that passes validation does, whatever the gateway
    answers. *)
Lemma turn_summary env s u th cfg :
  validated s u = true ->
  activeThread s = Some th -> activeConfiguration s = Some cfg ->
  (isLoading (store (turn env s u)) = false
   /\ input (chat (turn env s u)) = ""
   /\ fileAttachments (chat (turn env s u)) = [])
  /\ (if assisted s
      then completionHistories (trace (turn env s u)) = []
           /\ exists rest,
                httpEvents (trace (turn env s u)) = messagePost th u :: rest
      else filter isAssistedRequest (trace (turn env s u)) = [])
  /\ map (fun c => (fst c, userName (snd c), prompt (snd c),
                    wh_model (snd c), wh_threadId (snd c)))
         (webhookCalls (trace (turn env s u)))
     = (match error (chat (turn env s u)) with
        | None => if JS.truthy (webhookURL cfg)
                  then [(webhookURL cfg, "User", input u, model cfg,
                         threadId th)]
                  else []
        | Some _ => []
        end)
  /\ (forall a, In a (assistantAppends (trace (turn env s u))) ->
      exists j, 2 <= j /\ timestamp a = clock env j
                /\ msg_id a = Some (clock env (S j))).
Proof.
  intros Hv Ha Hc. unfold assisted. rewrite Hc.
  valid_turn_post Hv th' cfg'.
  assert (th' = th) by congruence. subst th'.
  assert (cfg' = cfg) by congruence. subst cfg'.
  wp.
  all: split; [repeat split|].
  all: split;
    [ try (split; [log_norm; reflexivity
                  | unfold httpEvents, messagePost; cbn [filter isHttp];
                    rewrite ?no_file_ids; eexists; reflexivity]);
      try reflexivity
    | ].
  all: split; [log_norm; cbn [error]; try reflexivity|].
  all: unfold assistantAppends; log_norm; cbn.
  all: intros a' Hin; repeat destruct Hin as [<-|Hin]; try contradiction.
  all: eexists; (split; [|split; cbn; reflexivity]); lia.
Qed.

(** ** Failures of the assisted path *)

(** The same for the errors the walk names. *)
Ltac same_errors :=
  repeat match goal with
         | H1 : ?f ?e = inl ?a, H2 : ?f ?e = inl ?b |- _ =>
             is_var a; is_var b;
             assert (a = b) by congruence; subst a; clear H1
         end.

Lemma shownMessage_prefixed c rest :
  shownMessage (Error (String c rest)) = String c rest.
Proof. reflexivity. Qed.

Lemma turn_post_message_fails env s u th e :
  validated s u = true -> assisted s = true -> activeThread s = Some th ->
  post_message env = inl e ->
  httpEvents (trace (turn env s u)) = [messagePost th u]
  /\ (rejected e 404 = true ->
      error (chat (turn env s u))
      = Some ("Thread " ++ threadId th
              ++ " not found. It may have expired or been deleted.")%string)
  /\ (rejected e 404 = false -> rejected e 401 = true ->
      error (chat (turn env s u))
      = Some "Authentication failed. Please check your API key.")
  /\ (rejected e 404 = false -> rejected e 401 = false ->
      rejected e 400 = true ->
      error (chat (turn env s u))
      = Some ("Bad request: " ++ detail_or e "Invalid request format")%string)
  /\ (rejected e 404 = false -> rejected e 401 = false ->
      rejected e 400 = false ->
      error (chat (turn env s u))
      = Some "Failed to send message. Please try again.").
Proof.
  intros Hv Hd Ha Hm. unfold assisted in Hd. unfold rejected.
  valid_turn_post Hv th' cfg.
  assert (th' = th) by congruence. subst th'.
  rewrite Hconfig in Hd.
  wp.
  all: same_errors.
  all: unfold httpEvents, messagePost; cbn [filter isHttp error];
    rewrite ?no_file_ids.
  all: repeat split; intros; try congruence.
  all: cbn [String.append]; now rewrite shownMessage_prefixed.
Qed.

Lemma turn_run_fails env s u th cfg e :
  validated s u = true -> assisted s = true -> activeThread s = Some th ->
  activeConfiguration s = Some cfg ->
  post_message env = inr tt -> post_run env = inl e ->
  httpEvents (trace (turn env s u)) = [messagePost th u; runPost cfg th]
  /\ (rejected e 404 = true ->
      error (chat (turn env s u))
      = Some ("Thread " ++ threadId th ++ " or assistant not found.")%string)
  /\ (rejected e 404 = false -> rejected e 400 = true ->
      error (chat (turn env s u))
      = Some ("Bad request: " ++ detail_or e "Invalid request")%string)
  /\ (rejected e 404 = false -> rejected e 400 = false ->
      error (chat (turn env s u))
      = Some "Failed to run assistant. Please try again.").
Proof.
  intros Hv Hd Ha Hc Hm Hr. unfold assisted in Hd. unfold rejected.
  valid_turn_post Hv th' cfg'.
  assert (th' = th) by congruence. subst th'.
  assert (cfg' = cfg) by congruence. subst cfg'.
  rewrite Hconfig in Hd.
  wp.
  all: same_errors.
  all: unfold httpEvents, messagePost, runPost; cbn [filter isHttp error];
    rewrite ?no_file_ids.
  all: repeat split; intros; try congruence.
  all: cbn [String.append]; now rewrite shownMessage_prefixed.
Qed.

Lemma filter_http_pollEvents n tid rid :
  filter isHttp (pollEvents n tid rid) = repeat (HttpGetRun tid rid) n.
Proof.
  induction n; [reflexivity|].
  rewrite pollEvents_S. cbn. now rewrite IHn.
Qed.

Lemma Polls_thrown env k st pc n e :
  Polls env k st pc n (Throw e) ->
  0 < n /\ get_run env (k + n - 1) = inl e.
Proof.
  remember (Throw e) as res eqn:Hres. intros HP. revert Hres.
  induction HP as [k st pc K | k st pc e' K G | k st pc r n res K G HP IH];
    intros Hres.
  - discriminate.
  - injection Hres as ->. split; [lia|].
    now replace (k + 1 - 1) with k by lia.
  - destruct (IH Hres) as (Hn & Hg). split; [lia|].
    now replace (k + S n - 1) with (S k + n - 1) by lia.
Qed.

(** How an assisted turn ends when its run does not complete. *)
Lemma turn_assisted_stops env s u th cfg r0 :
  validated s u = true -> assisted s = true -> activeThread s = Some th ->
  activeConfiguration s = Some cfg ->
  post_message env = inr tt -> post_run env = inr r0 ->
  exists n res,
    Polls env 0 (status r0) 0 n res
    /\ match res with
       | Ok (completed, _) => True
       | Ok (failed, _) =>
           httpEvents (trace (turn env s u))
           = [messagePost th u; runPost cfg th]
               ++ repeat (HttpGetRun (threadId th) (run_id r0)) n
           /\ error (chat (turn env s u))
              = Some "Assistant run failed. Please try again."
       | Ok (cancelled, _) =>
           httpEvents (trace (turn env s u))
           = [messagePost th u; runPost cfg th]
               ++ repeat (HttpGetRun (threadId th) (run_id r0)) n
           /\ error (chat (turn env s u))
              = Some "Assistant run was cancelled."
       | Ok (_, _) =>
           httpEvents (trace (turn env s u))
           = [messagePost th u; runPost cfg th]
               ++ repeat (HttpGetRun (threadId th) (run_id r0)) n
           /\ error (chat (turn env s u))
              = Some "Assistant run timed out. Please try again."
       | Throw e =>
           httpEvents (trace (turn env s u))
           = [messagePost th u; runPost cfg th]
               ++ repeat (HttpGetRun (threadId th) (run_id r0)) n
           /\ error (chat (turn env s u)) = Some (shownMessage e)
       end.
Proof.
  intros Hv Hd Ha Hc Hm Hr. unfold assisted in Hd.
  valid_turn_post Hv th' cfg'.
  assert (th' = th) by congruence. subst th'.
  assert (cfg' = cfg) by congruence. subst cfg'.
  rewrite Hconfig in Hd.
  wp.
  all: same_answers.
  all: match goal with
       | H : Polls _ _ _ _ ?n ?res |- _ =>
           exists n, res; split; [exact H|]
       end.
  all: try match goal with
       | H : fst ?a = _ |- _ => destruct a; cbn [fst] in H; subst
       end.
  all: try exact I.
  all: unfold httpEvents, messagePost, runPost;
    repeat (progress (cbn [filter isHttp app]; rewrite ?filter_app));
    rewrite ?filter_http_pollEvents, ?no_file_ids; cbn [filter app error];
    rewrite ?app_nil_r; auto.
Qed.

(** ** The loading flag *)

Lemma render_with_isLoading s b u : render (with_isLoading s b) u = render s u.
Proof. reflexivity. Qed.

Lemma turn_ignores_isLoading env s u b :
  validated s u = true ->
  turn env (with_isLoading s b) u = turn env s u.
Proof.
  intros Hv.
  destruct (validated_true _ _ Hv) as (Hin & (th & Hth) & (cfg & Hcfg)).
  unfold turn. rewrite render_with_isLoading.
  unfold handleSendMessage, render. cbn [c_activeThread c_activeConfiguration c_input].
  rewrite Hth, Hcfg, Hin. cbn [negb].
  unfold tryFinally, tryCatch. unfold bind at 1 3. unfold setLoading, setStore.
  reflexivity.
Qed.

(** ** The renamed thread *)

Lemma active_renamed th s n b :
  ActiveId th s ->
  activeThread (with_isLoading (replaceThread (with_name th n) s) b)
  = Some (with_name th n)
  /\ forall t, In t (threads (with_isLoading
                               (replaceThread (with_name th n) s) b)) ->
               threadId t = threadId th -> t = with_name th n.
Proof.
  intros (a & Ha & Hid). unfold replaceThread. cbn. rewrite Ha, Hid.
  rewrite String.eqb_refl. split; [reflexivity|].
  intros t Hin Ht. apply in_map_iff in Hin as (x & Hx & _).
  destruct (String.eqb (threadId x) (threadId th)) eqn:E; [congruence|].
  apply String.eqb_neq in E. congruence.
Qed.

Lemma turn_rename_record env s u th :
  validated s u = true -> activeThread s = Some th ->
  JS.startsWith (name th) "Thread " = true ->
  error (chat (turn env s u)) = None ->
  activeThread (store (turn env s u))
  = Some (with_name th (derivedName (input u)))
  /\ forall t, In t (threads (store (turn env s u))) ->
               threadId t = threadId th ->
               t = with_name th (derivedName (input u)).
Proof.
  intros Hv Ha Hp.
  destruct (validated_true _ _ Hv) as (Hin & _ & (cfg & Hcfg)).
  turn_post. unfold handleSendMessage. simpl_folded.
  rewrite Ha, Hcfg. simpl_folded. rewrite Hin. cbn [negb].
  wp_folded.
  all: intros He; try discriminate He.
  all: apply active_renamed; active_id.
Qed.

(** ** The direct path's outcome *)

Lemma turn_direct_outcome env s u :
  validated s u = true -> assisted s = false ->
  match post_completion env with
  | inl e =>
      error (chat (turn env s u)) = Some (shownMessage e)
  | inr response =>
      match firstChoiceContent response with
      | Some text =>
          if JS.truthy text
          then error (chat (turn env s u)) = None
               /\ map content (assistantAppends (trace (turn env s u)))
                  = [text]
          else error (chat (turn env s u))
               = Some "No response received from the model"
      | None =>
          error (chat (turn env s u))
          = Some "No response received from the model"
      end
  end.
Proof.
  intros Hv Hd. unfold assisted in Hd.
  valid_turn_post Hv th cfg. rewrite Hconfig in Hd.
  wp.
  all: repeat match goal with
              | H : inr _ = inr _ |- _ => injection H as H; subst
              | H : inl _ = inl _ |- _ => injection H as H; subst
              end.
  all: unfold assistantAppends; log_norm; cbn; try split; congruence.
Qed.

(** ** The attachment chips *)

Lemma filter_index_shift {A} (index i : nat) (xs : list A) :
  filter_index (fun _ j => negb (Nat.eqb j (i + index))) i xs
  = firstn index xs ++ skipn (S index) xs.
Proof.
  revert index i. induction xs as [|x xs IH]; intros index i.
  - now destruct index.
  - cbn [filter_index]. destruct index as [|index].
    + rewrite Nat.add_0_r, Nat.eqb_refl. cbn.
      clear IH. revert i. induction xs as [|y ys IHy]; intros i;
        [reflexivity|].
      cbn [filter_index].
      replace (Nat.eqb (S i) i) with false
        by (symmetry; apply Nat.eqb_neq; lia).
      cbn. f_equal.
      specialize (IHy (S i)).
      assert (G : forall (zs : list A) j,
                 i < j ->
                 filter_index (fun _ k => negb (Nat.eqb k i)) j zs = zs).
      { clear. induction zs as [|z zs IHz]; intros j Hj; [reflexivity|].
        cbn. replace (Nat.eqb j i) with false
          by (symmetry; apply Nat.eqb_neq; lia).
        cbn. f_equal. apply IHz. lia. }
      apply G. lia.
    + replace (Nat.eqb i (i + S index)) with false
        by (symmetry; apply Nat.eqb_neq; lia).
      cbn. f_equal.
      replace (i + S index) with (S i + index) by lia.
      apply IH.
Qed.

(** ** Properties of a turn *)

(** X8. Accepting the fallback after a rejected thread creation gives a
    thread with a local identifier but leaves the configuration as it
    is: it is still assisted.  So the next turn on that thread takes the
    assisted path: it issues no completion request, and its first
    request posts the message to the gateway under the local
    identifier. *)
Theorem X8_fallback_keeps_assisted_mode answers env s t cfg e env' text :
  activeConfiguration s = Some cfg ->
  useAssistantApi cfg && JS.truthy (assistantId cfg) = true ->
  post_threads answers = inl e -> confirmed answers = true ->
  JS.truthy (JS.trim text) = true ->
  let s' := fst (createThreadOn answers env s t) in
  activeConfiguration s' = Some cfg
  /\ completionHistories (trace (turn env' s' (typed text))) = []
  /\ exists rest,
       httpEvents (trace (turn env' s' (typed text)))
       = HttpPostMessage ("local-" ++ decimalZ (clock env 0))%string
           {| mp_role := user; mp_content := text; file_ids := None |}
         :: rest.
Proof.
  intros Hc Hg Hp Hf Ht.
  assert (Hs : settledThreadId cfg answers env
               = Some ("local-" ++ decimalZ (clock env 0))%string)
    by (unfold settledThreadId; now rewrite Hg, Hp, Hf).
  destruct (createThreadOn_settled answers env s t cfg _ Hc Hs)
    as (d1 & d2 & E).
  cbv zeta. rewrite E. cbn [fst].
  set (nt := newThread s ("local-" ++ decimalZ (clock env 0))%string d1 d2).
  set (s' := with_isLoading _ false).
  assert (Hv : validated s' (typed text) = true).
  { unfold validated. cbn. rewrite Ht, Hc. reflexivity. }
  destruct (turn_summary env' s' (typed text) nt cfg Hv eq_refl Hc)
    as (_ & Hmode & _).
  assert (Ha : assisted s' = true) by (unfold assisted; cbn; now rewrite Hc).
  rewrite Ha in Hmode. split; [exact Hc|]. exact Hmode.
Qed.

Lemma X8_fallback_keeps_assisted_mode_witness :
  let s' := fst (createThreadOn (creationRejected 404 true)
                   (scripted [] [] "") (emptyConversation assistedConfig)
                   idle) in
  exists rest,
    httpEvents (trace (turn completesAfterFour s' (typed "Hello")))
    = HttpPostMessage "local-5000"
        {| mp_role := user; mp_content := "Hello"; file_ids := None |}
      :: rest.
Proof.
  exact (proj2 (proj2 (X8_fallback_keeps_assisted_mode
                         (creationRejected 404 true) (scripted [] [] "")
                         (emptyConversation assistedConfig) idle
                         assistedConfig (rejection 404) completesAfterFour
                         "Hello" eq_refl eq_refl eq_refl eq_refl eq_refl))).
Defined.

(** X9. When the message post fails, the turn stops there: the post is
    its only request (no run is started, nothing is polled) and no
    assistant message is stored.  The error shown is fixed by the HTTP
    status: 404 names the thread, 401 the API key, 400 carries the
    provider's detail (or "Invalid request format"); every other
    failure, a rate limit or a network error included, shows the
    general message. *)
Theorem X9_failed_message_post_ends_the_turn env s u th e :
  validated s u = true -> assisted s = true -> activeThread s = Some th ->
  post_message env = inl e ->
  httpEvents (trace (turn env s u)) = [messagePost th u]
  /\ assistantAppends (trace (turn env s u)) = []
  /\ (rejected e 404 = true ->
      error (chat (turn env s u))
      = Some ("Thread " ++ threadId th
              ++ " not found. It may have expired or been deleted.")%string)
  /\ (rejected e 401 = true ->
      error (chat (turn env s u))
      = Some "Authentication failed. Please check your API key.")
  /\ (rejected e 400 = true ->
      error (chat (turn env s u))
      = Some ("Bad request: " ++ detail_or e "Invalid request format")%string)
  /\ (rejected e 404 = false -> rejected e 401 = false ->
      rejected e 400 = false ->
      error (chat (turn env s u))
      = Some "Failed to send message. Please try again.").
Proof.
  intros Hv Hd Ha Hm.
  destruct (turn_post_message_fails env s u th e Hv Hd Ha Hm)
    as (Hh & H404 & H401 & H400 & Hgen).
  assert (Hfail : error (chat (turn env s u)) <> None).
  { destruct (rejected e 404) eqn:E4; [rewrite H404; congruence|].
    destruct (rejected e 401) eqn:E1; [rewrite H401; congruence|].
    destruct (rejected e 400) eqn:E0; [rewrite H400; congruence|].
    rewrite Hgen; congruence. }
  split; [exact Hh|].
  split; [exact (proj2 (turn_reply_iff_success env s u Hv) Hfail)|].
  split; [exact H404|]. split; [|split; [|exact Hgen]].
  - intros H. apply H401; [|exact H].
    apply (rejected_exclusive e 401); [exact H | discriminate].
  - intros H. apply H400; [| |exact H];
      apply (rejected_exclusive e 400); try exact H; discriminate.
Qed.

Lemma X9_failed_message_post_ends_the_turn_witness :
  let env := answering (inl (rejection 429)) (inr (run queued))
               (fun _ => inr (run completed)) in
  let w := turn env (emptyConversation assistedConfig) (typed "Hello") in
  httpEvents (trace w) = [messagePost thread1 (typed "Hello")]
  /\ error (chat w) = Some "Failed to send message. Please try again.".
Proof.
  cbv zeta.
  destruct (X9_failed_message_post_ends_the_turn
              (answering (inl (rejection 429)) (inr (run queued))
                 (fun _ => inr (run completed)))
              (emptyConversation assistedConfig) (typed "Hello") thread1
              (rejection 429) eq_refl eq_refl eq_refl eq_refl)
    as (Hh & _ & _ & _ & _ & Hgen).
  split; [exact Hh | exact (Hgen eq_refl eq_refl eq_refl)].
Defined.

(** X10. When the run start fails, the turn stops after its two
    requests, the message post and the run start (sent for the
    configured assistant, with the model in the request only when the
    configuration names one), and stores no assistant message; 404
    shows that the thread or the assistant was not found, 400 the
    provider's detail (or "Invalid request"), and every other failure,
    a rejected API key included, the general message. *)
Theorem X10_failed_run_start_ends_the_turn env s u th cfg e :
  validated s u = true -> assisted s = true -> activeThread s = Some th ->
  activeConfiguration s = Some cfg ->
  post_message env = inr tt -> post_run env = inl e ->
  httpEvents (trace (turn env s u)) = [messagePost th u; runPost cfg th]
  /\ assistantAppends (trace (turn env s u)) = []
  /\ (rejected e 404 = true ->
      error (chat (turn env s u))
      = Some ("Thread " ++ threadId th ++ " or assistant not found.")%string)
  /\ (rejected e 400 = true ->
      error (chat (turn env s u))
      = Some ("Bad request: " ++ detail_or e "Invalid request")%string)
  /\ (rejected e 404 = false -> rejected e 400 = false ->
      error (chat (turn env s u))
      = Some "Failed to run assistant. Please try again.").
Proof.
  intros Hv Hd Ha Hc Hm Hr.
  destruct (turn_run_fails env s u th cfg e Hv Hd Ha Hc Hm Hr)
    as (Hh & H404 & H400 & Hgen).
  assert (Hfail : error (chat (turn env s u)) <> None).
  { destruct (rejected e 404) eqn:E4; [rewrite H404; congruence|].
    destruct (rejected e 400) eqn:E0; [rewrite H400; congruence|].
    rewrite Hgen; congruence. }
  split; [exact Hh|].
  split; [exact (proj2 (turn_reply_iff_success env s u Hv) Hfail)|].
  split; [exact H404|]. split; [|exact Hgen].
  intros H. apply H400; [|exact H].
  apply (rejected_exclusive e 400); [exact H | discriminate].
Qed.

Lemma X10_failed_run_start_ends_the_turn_witness :
  let env := answering (inr tt) (inl (rejection 401))
               (fun _ => inr (run completed)) in
  let w := turn env (emptyConversation assistedConfig) (typed "Hello") in
  httpEvents (trace w)
  = [messagePost thread1 (typed "Hello");
     HttpPostRun "thread_1"
       {| assistant_id := "asst_1"; rp_model := Some "gpt-4" |}]
  /\ error (chat w) = Some "Failed to run assistant. Please try again.".
Proof.
  cbv zeta.
  destruct (X10_failed_run_start_ends_the_turn
              (answering (inr tt) (inl (rejection 401))
                 (fun _ => inr (run completed)))
              (emptyConversation assistedConfig) (typed "Hello") thread1
              assistedConfig (rejection 401)
              eq_refl eq_refl eq_refl eq_refl eq_refl eq_refl)
    as (Hh & _ & _ & _ & Hgen).
  split; [exact Hh | exact (Hgen eq_refl eq_refl)].
Defined.

(** X11. A failed status read ends the turn at once.  If the run is
    pending after each of the first [k] reads ([k < 60]) and the next
    read fails, the turn has issued exactly [k + 1] status reads after
    the message post and the run start, and nothing else: the read is
    not repeated and the message list is not fetched.  The error shown
    is the failure's own message, and no assistant message is stored. *)
Theorem X11_failed_status_read_ends_the_turn env s u th cfg r0 k e :
  validated s u = true -> assisted s = true -> activeThread s = Some th ->
  activeConfiguration s = Some cfg ->
  post_message env = inr tt -> post_run env = inr r0 ->
  k < maxPolls -> allPending env r0 (S k) = true ->
  get_run env k = inl e ->
  httpEvents (trace (turn env s u))
  = [messagePost th u; runPost cfg th]
      ++ repeat (HttpGetRun (threadId th) (run_id r0)) (S k)
  /\ error (chat (turn env s u)) = Some (shownMessage e)
  /\ assistantAppends (trace (turn env s u)) = [].
Proof.
  intros Hv Hd Ha Hc Hm Hr Hk Hall He.
  destruct (turn_assisted_stops env s u th cfg r0 Hv Hd Ha Hc Hm Hr)
    as (n & res & HP & Hres).
  assert (Hstop : pendingAt env r0 (S k) = false).
  { unfold pendingAt. cbn [statusAfter]. now rewrite He. }
  assert (Hn : n = S k).
  { apply Nat.le_antisymm.
    - exact (Polls_reads_le env r0 n res (S k) HP Hstop).
    - apply (Polls_reads_ge env r0 n res (S k) HP); [lia | exact Hall]. }
  subst n.
  destruct (Polls_result env r0 _ res HP) as (_ & Hst).
  destruct res as [[st' pc']|e'].
  - cbn [statusAfter] in Hst. rewrite He in Hst. discriminate.
  - destruct (Polls_thrown env 0 _ 0 _ e' HP) as (_ & Hg).
    replace (0 + S k - 1) with k in Hg by lia.
    assert (e' = e) by congruence. subst e'.
    destruct Hres as (Hh & Herr).
    split; [exact Hh|]. split; [exact Herr|].
    apply (proj2 (turn_reply_iff_success env s u Hv)).
    rewrite Herr. discriminate.
Qed.

Lemma X11_failed_status_read_ends_the_turn_witness :
  let w := turn thirdReadFails (emptyConversation assistedConfig)
             (typed "Hello") in
  httpEvents (trace w)
  = [messagePost thread1 (typed "Hello"); runPost assistedConfig thread1]
      ++ repeat (HttpGetRun "thread_1" "run_1") 3
  /\ error (chat w) = Some "Network Error"
  /\ assistantAppends (trace w) = [].
Proof.
  exact (X11_failed_status_read_ends_the_turn thirdReadFails
           (emptyConversation assistedConfig) (typed "Hello") thread1
           assistedConfig (run queued) 2 networkError
           eq_refl eq_refl eq_refl eq_refl eq_refl eq_refl
           (proj1 (Nat.leb_le 3 60) eq_refl) eq_refl eq_refl).
Defined.

(** X12. A run that ends failed or cancelled is reported as such.  If
    the run is pending after each of the first [k] reads and the status
    after read [k] is failed or cancelled, the turn issues exactly [k]
    status reads after the message post and the run start and never
    fetches the message list; it stores no assistant message and shows
    the run-failed or the run-cancelled message. *)
Theorem X12_failed_or_cancelled_run env s u th cfg r0 k st :
  validated s u = true -> assisted s = true -> activeThread s = Some th ->
  activeConfiguration s = Some cfg ->
  post_message env = inr tt -> post_run env = inr r0 ->
  k <= maxPolls -> allPending env r0 k = true ->
  statusAfter env r0 k = Some st -> st = failed \/ st = cancelled ->
  httpEvents (trace (turn env s u))
  = [messagePost th u; runPost cfg th]
      ++ repeat (HttpGetRun (threadId th) (run_id r0)) k
  /\ assistantAppends (trace (turn env s u)) = []
  /\ error (chat (turn env s u))
     = Some (match st with
             | failed => "Assistant run failed. Please try again."
             | _ => "Assistant run was cancelled."
             end).
Proof.
  intros Hv Hd Ha Hc Hm Hr Hk Hall Hst Hend.
  destruct (turn_assisted_stops env s u th cfg r0 Hv Hd Ha Hc Hm Hr)
    as (n & res & HP & Hres).
  assert (Hstop : pendingAt env r0 k = false).
  { unfold pendingAt. rewrite Hst. now destruct Hend; subst st. }
  assert (Hn : n = k).
  { apply Nat.le_antisymm.
    - exact (Polls_reads_le env r0 n res k HP Hstop).
    - exact (Polls_reads_ge env r0 n res k HP Hk Hall). }
  subst n.
  destruct (Polls_result env r0 _ res HP) as (_ & Hst').
  destruct res as [[st' pc']|e']; [|congruence].
  assert (st' = st) by congruence. subst st'.
  assert (G : httpEvents (trace (turn env s u))
              = [messagePost th u; runPost cfg th]
                  ++ repeat (HttpGetRun (threadId th) (run_id r0)) k
              /\ error (chat (turn env s u))
                 = Some (match st with
                         | failed => "Assistant run failed. Please try again."
                         | _ => "Assistant run was cancelled."
                         end))
    by (destruct Hend; subst st; exact Hres).
  destruct G as (Hh & Herr).
  split; [exact Hh|]. split; [|exact Herr].
  apply (proj2 (turn_reply_iff_success env s u Hv)).
  rewrite Herr. discriminate.
Qed.

Lemma X12_failed_or_cancelled_run_witness :
  let w := turn cancelledAtSecond (emptyConversation assistedConfig)
             (typed "Hello") in
  httpEvents (trace w)
  = [messagePost thread1 (typed "Hello"); runPost assistedConfig thread1]
      ++ repeat (HttpGetRun "thread_1" "run_1") 2
  /\ assistantAppends (trace w) = []
  /\ error (chat w) = Some "Assistant run was cancelled.".
Proof.
  exact (X12_failed_or_cancelled_run cancelledAtSecond
           (emptyConversation assistedConfig) (typed "Hello") thread1
           assistedConfig (run queued) 2 cancelled
           eq_refl eq_refl eq_refl eq_refl eq_refl eq_refl
           (proj1 (Nat.leb_le 2 60) eq_refl) eq_refl eq_refl
           (or_intror eq_refl)).
Defined.

(** X13. The webhook is called at most once per turn, and exactly when
    the turn succeeds under a configuration whose webhook URL is not
    empty: then the one call goes to that URL with the user name
    "User", the text as typed, the configuration's model and the
    thread's identifier.  A turn that ends with an error calls no
    webhook. *)
Theorem X13_webhook_exactly_on_success env s u th cfg :
  validated s u = true ->
  activeThread s = Some th -> activeConfiguration s = Some cfg ->
  map (fun c => (fst c, userName (snd c), prompt (snd c),
                 wh_model (snd c), wh_threadId (snd c)))
      (webhookCalls (trace (turn env s u)))
  = match error (chat (turn env s u)) with
    | None => if JS.truthy (webhookURL cfg)
              then [(webhookURL cfg, "User", input u, model cfg,
                     threadId th)]
              else []
    | Some _ => []
    end.
Proof.
  intros Hv Ha Hc. exact (proj1 (proj2 (proj2 (turn_summary env s u th cfg
                                                 Hv Ha Hc)))).
Qed.

Lemma X13_webhook_exactly_on_success_witness :
  map (fun c => (fst c, prompt (snd c)))
      (webhookCalls
         (trace (turn completesAfterFour (emptyConversation assistedConfig)
                   (typed "Hello"))))
  = [("https://hook.example/notify", "Hello")]
  /\ webhookCalls
       (trace (turn neverCompletes (emptyConversation assistedConfig)
                 (typed "Hello")))
     = [].
Proof.
  split.
  - pose proof (X13_webhook_exactly_on_success completesAfterFour
                  (emptyConversation assistedConfig) (typed "Hello")
                  thread1 assistedConfig eq_refl eq_refl eq_refl) as H.
    apply (f_equal (map (fun q => (fst (fst (fst (fst q))),
                                   snd (fst (fst q)))))) in H.
    rewrite map_map in H. exact H.
  - pose proof (X13_webhook_exactly_on_success neverCompletes
                  (emptyConversation assistedConfig) (typed "Hello")
                  thread1 assistedConfig eq_refl eq_refl eq_refl) as H.
    apply map_eq_nil in H. exact H.
Defined.

(** X14. The two paths never mix.  A turn under an assisted
    configuration issues no completion request, and its first request
    is the message post; a turn under any other configuration issues no
    request of the assisted path: no message post, no run start, no
    status read, no read of the message list. *)
Theorem X14_paths_are_exclusive env s u th cfg :
  validated s u = true ->
  activeThread s = Some th -> activeConfiguration s = Some cfg ->
  if assisted s
  then completionHistories (trace (turn env s u)) = []
       /\ exists rest,
            httpEvents (trace (turn env s u)) = messagePost th u :: rest
  else filter isAssistedRequest (trace (turn env s u)) = [].
Proof.
  intros Hv Ha Hc. exact (proj1 (proj2 (turn_summary env s u th cfg
                                          Hv Ha Hc))).
Qed.

Lemma X14_paths_are_exclusive_witness :
  completionHistories
    (trace (turn completesAfterFour (emptyConversation assistedConfig)
              (typed "Hello")))
  = []
  /\ filter isAssistedRequest
       (trace (turn completesAfterFour (emptyConversation directConfig)
                 (typed "Hello")))
     = [].
Proof.
  split.
  - exact (proj1 (X14_paths_are_exclusive completesAfterFour
                    (emptyConversation assistedConfig) (typed "Hello")
                    thread1 assistedConfig eq_refl eq_refl eq_refl)).
  - exact (X14_paths_are_exclusive completesAfterFour
             (emptyConversation directConfig) (typed "Hello")
             thread1 directConfig eq_refl eq_refl eq_refl).
Defined.

(** X15. However a turn that passes validation ends, with a reply or
    with an error, the loading flag is off afterwards, the input field
    is empty and the file selection is empty: a failed turn does not
    put the typed text back. *)
Theorem X15_turn_always_resets_the_form env s u :
  validated s u = true ->
  isLoading (store (turn env s u)) = false
  /\ input (chat (turn env s u)) = ""
  /\ fileAttachments (chat (turn env s u)) = [].
Proof.
  intros Hv. pose proof Hv as Hv'. unfold validated in Hv'.
  destruct (activeThread s) as [th|] eqn:Ha;
    [|rewrite ?andb_false_r in Hv'; discriminate].
  destruct (activeConfiguration s) as [cfg|] eqn:Hc;
    [|rewrite ?andb_false_r in Hv'; discriminate].
  exact (proj1 (turn_summary env s u th cfg Hv Ha Hc)).
Qed.

Lemma X15_turn_always_resets_the_form_witness :
  let w := turn neverCompletes (emptyConversation assistedConfig)
             {| input := "Hello"; fileAttachments := [{| file_name := "a.txt" |}];
                error := None; runId := None |} in
  isLoading (store w) = false /\ input (chat w) = ""
  /\ fileAttachments (chat w) = [].
Proof.
  exact (X15_turn_always_resets_the_form neverCompletes
           (emptyConversation assistedConfig)
           {| input := "Hello"; fileAttachments := [{| file_name := "a.txt" |}];
              error := None; runId := None |} eq_refl).
Defined.

(** X16. The handler never looks at the loading flag.  A turn that
    passes validation runs the same, request for request, and ends in
    the same state whether or not the flag was set when it was
    submitted: the flag disables the controls of the page, the handler
    itself does not refuse a submission while another one is loading. *)
Theorem X16_loading_flag_is_not_a_guard env s u b :
  validated s u = true ->
  turn env (with_isLoading s b) u = turn env s u.
Proof. apply turn_ignores_isLoading. Qed.

Lemma X16_loading_flag_is_not_a_guard_witness :
  turn completesAfterFour
    (with_isLoading (emptyConversation assistedConfig) true) (typed "Hello")
  = turn completesAfterFour (emptyConversation assistedConfig)
      (typed "Hello").
Proof.
  exact (X16_loading_flag_is_not_a_guard completesAfterFour
           (emptyConversation assistedConfig) (typed "Hello") true eq_refl).
Defined.

(** X17. The rename writes back the thread record the handler captured
    when the turn was submitted.  After a successful turn on a thread
    whose name starts with "Thread ", the active thread and every
    thread of the list with its identifier are that captured record
    under the new name: the two refreshes of the last-updated time that
    storing the user's message and the reply made during the turn are
    overwritten, and the thread shows the last-updated time it had
    before the turn. *)
Theorem X17_rename_restores_the_captured_record env s u th :
  validated s u = true -> activeThread s = Some th ->
  JS.startsWith (name th) "Thread " = true ->
  error (chat (turn env s u)) = None ->
  activeThread (store (turn env s u))
  = Some (with_name th (derivedName (input u)))
  /\ (forall t, In t (threads (store (turn env s u))) ->
                threadId t = threadId th ->
                t = with_name th (derivedName (input u)))
  /\ option_map lastUpdated (activeThread (store (turn env s u)))
     = Some (lastUpdated th).
Proof.
  intros Hv Ha Hn He.
  destruct (turn_rename_record env s u th Hv Ha Hn He) as (H1 & H2).
  split; [exact H1|]. split; [exact H2|].
  rewrite H1. reflexivity.
Qed.

Lemma X17_rename_restores_the_captured_record_witness :
  let w := turn completesAfterFour (emptyConversation assistedConfig)
             (typed "Hello") in
  option_map lastUpdated (activeThread (store w)) = Some 1000%Z.
Proof.
  exact (proj2 (proj2 (X17_rename_restores_the_captured_record
                         completesAfterFour
                         (emptyConversation assistedConfig) (typed "Hello")
                         thread1 eq_refl eq_refl eq_refl eq_refl))).
Defined.

(** X18. The outcome of a direct turn is read off the completion
    response alone.  If the request fails, the turn stores no reply and
    shows the failure's message (the general message when it has
    none).  If the list of choices starts with a choice whose message
    has a content that is not empty, the turn succeeds and stores
    exactly one assistant message, whose content is that content,
    unchanged, whatever choices follow.  If the list of choices is
    empty, or its first choice has no message, or that message's
    content is empty, the turn stores no reply and ends with
    "No response received from the model", again whatever choices
    follow. *)
Theorem X18_direct_turn_outcome env s u :
  validated s u = true -> assisted s = false ->
  (forall e, post_completion env = inl e ->
     error (chat (turn env s u))
     = Some (if String.eqb (message e) ""
             then "Failed to send message. Please try again."
             else message e)
     /\ assistantAppends (trace (turn env s u)) = [])
  /\ (forall first later,
        post_completion env
        = inr {| choices := {| choice_message := Some first |} :: later |} ->
        cm_content first <> "" ->
        error (chat (turn env s u)) = None
        /\ map content (assistantAppends (trace (turn env s u)))
           = [cm_content first])
  /\ (forall response,
        post_completion env = inr response ->
        choices response = []
        \/ (exists later,
              choices response = {| choice_message := None |} :: later)
        \/ (exists first later,
              choices response
              = {| choice_message := Some first |} :: later
              /\ cm_content first = "") ->
        error (chat (turn env s u))
        = Some "No response received from the model"
        /\ assistantAppends (trace (turn env s u)) = []).
Proof.
  intros Hv Hd.
  pose proof (turn_direct_outcome env s u Hv Hd) as H.
  pose proof (proj2 (turn_reply_iff_success env s u Hv)) as Hnone.
  split; [|split].
  - intros e He. rewrite He in H.
    assert (G : error (chat (turn env s u))
                = Some (if String.eqb (message e) ""
                        then "Failed to send message. Please try again."
                        else message e)).
    { rewrite H. unfold shownMessage, JS.truthy.
      now destruct (String.eqb (message e) ""). }
    split; [exact G|]. apply Hnone. rewrite G. discriminate.
  - intros first later Hr Hne. rewrite Hr in H.
    cbn [firstChoiceContent choices choice_message] in H.
    assert (T : JS.truthy (cm_content first) = true).
    { unfold JS.truthy. apply negb_true_iff. now apply String.eqb_neq. }
    rewrite T in H. exact H.
  - intros response Hr Hcase. rewrite Hr in H.
    assert (G : error (chat (turn env s u))
                = Some "No response received from the model").
    { destruct Hcase as [E|[(later & E)|(first & later & E & Hc)]];
        unfold firstChoiceContent in H; rewrite E in H;
        cbn [choice_message] in H; [exact H | exact H |].
      rewrite Hc in H. exact H. }
    split; [exact G|]. apply Hnone. rewrite G. discriminate.
Qed.

Lemma X18_direct_turn_outcome_witness :
  let s := emptyConversation directConfig in
  let two := turn (completing (replies ["Hi"; "Other"])) s (typed "Hello") in
  let none := turn (completing (replies [])) s (typed "Hello") in
  let blank := turn (completing (replies [""; "Other"])) s (typed "Hello") in
  (error (chat two) = None
   /\ map content (assistantAppends (trace two)) = ["Hi"])
  /\ (error (chat none) = Some "No response received from the model"
      /\ assistantAppends (trace none) = [])
  /\ (error (chat blank) = Some "No response received from the model"
      /\ assistantAppends (trace blank) = []).
Proof.
  cbv zeta. split; [|split].
  - apply (proj1 (proj2 (X18_direct_turn_outcome
                           (completing (replies ["Hi"; "Other"]))
                           (emptyConversation directConfig) (typed "Hello")
                           eq_refl eq_refl))
             {| cm_role := assistant; cm_content := "Hi" |}
             (choices (replies ["Other"])));
      [reflexivity | discriminate].
  - apply (proj2 (proj2 (X18_direct_turn_outcome
                           (completing (replies []))
                           (emptyConversation directConfig) (typed "Hello")
                           eq_refl eq_refl))
             (replies []) eq_refl).
    left. reflexivity.
  - apply (proj2 (proj2 (X18_direct_turn_outcome
                           (completing (replies [""; "Other"]))
                           (emptyConversation directConfig) (typed "Hello")
                           eq_refl eq_refl))
             (replies [""; "Other"]) eq_refl).
    right. right.
    exists {| cm_role := assistant; cm_content := "" |},
           (choices (replies ["Other"])).
    split; reflexivity.
Defined.

(** X19. When the clock never runs backwards, the messages of a turn
    are stamped in the order they were stored.  The first message the
    turn stores is the user's, whose identifier is the second clock
    reading; every reply the turn stores has an identifier, its
    timestamp is not before the user message's identifier and its own
    identifier is not before its timestamp. *)
Theorem X19_reply_is_stamped_after_the_question env s u th :
  validated s u = true -> activeThread s = Some th -> monotone env ->
  hd_error (appendedMessages (trace (turn env s u)))
  = Some (userMessage env th u)
  /\ forall a, In a (assistantAppends (trace (turn env s u))) ->
       exists i, msg_id a = Some i
                 /\ (clock env 1 <= timestamp a <= i)%Z.
Proof.
  intros Hv Ha Hmono. split.
  - destruct (turn_first_event env s u th Hv Ha) as (rest & ->).
    reflexivity.
  - pose proof Hv as Hv'. unfold validated in Hv'.
    destruct (activeConfiguration s) as [cfg|] eqn:Hc;
      [|rewrite ?andb_false_r in Hv'; discriminate].
    destruct (turn_summary env s u th cfg Hv Ha Hc) as (_ & _ & _ & Hst).
    intros a Hin. destruct (Hst a Hin) as (j & Hj & Ht & Hi).
    exists (clock env (S j)). split; [exact Hi|].
    rewrite Ht. split; apply Hmono; lia.
Qed.

Lemma monotone_scripted statuses entries completion :
  monotone (scripted statuses entries completion).
Proof. intros i j Hij. unfold scripted. cbn [clock]. lia. Qed.

Lemma X19_reply_is_stamped_after_the_question_witness :
  Forall (fun a => exists i, msg_id a = Some i
                             /\ (6000 <= timestamp a <= i)%Z)
    (assistantAppends
       (trace (turn completesAfterFour (emptyConversation assistedConfig)
                 (typed "Hello")))).
Proof.
  apply Forall_forall.
  exact (proj2 (X19_reply_is_stamped_after_the_question completesAfterFour
                  (emptyConversation assistedConfig) (typed "Hello") thread1
                  eq_refl eq_refl (monotone_scripted _ _ _))).
Defined.

(** X20. The cross on an attachment chip removes the file at the chip's
    position and nothing else: the files before it and the files after
    it stay, in their order.  (A position past the end of the list
    removes nothing.) *)
Theorem X20_removeAttachment_drops_one_file index files :
  removeAttachment index files
  = firstn index files ++ skipn (S index) files.
Proof. unfold removeAttachment. apply (filter_index_shift index 0). Qed.
